(** * Continuous coding agent: change-set analysis, task synthesis, README patching

    A shallow embedding of [agent-workflow/continuous-agent.js]
    (class [ContinuousAgent]) together with the properties its
    specification states about it.

    JavaScript strings are sequences of UTF-16 code units; they are
    modelled as [list N].  The collaborators (the GitHub client, the
    clock, [path.extname], the file system) are an interface the agent
    is parameterised by; calls that may throw return a [result].

    The development also covers the constructor's reading of
    [GITHUB_REPOSITORY] and the checks of [agent-workflow/validate-workflow.js]
    (class [WorkflowValidator]), which consume what the agent writes. *)

From Stdlib Require Import List ZArith NArith Bool Lia String Ascii.
From Stdlib Require Import DecimalString Permutation.
Import ListNotations.

Local Open Scope Z_scope.

(* ================================================================= *)
(** ** JavaScript string primitives *)

Module JS.

Definition jsstring : Type := list N.

(** An ASCII literal as code units. *)
Definition str (s : string) : jsstring :=
  map N_of_ascii (list_ascii_of_string s).

(** The line feed escape. *)
Definition nl : jsstring := [10%N].

Definition len (s : jsstring) : Z := Z.of_nat (List.length s).

Fixpoint eqb (s t : jsstring) : bool :=
  match s, t with
  | [], [] => true
  | a :: s', b :: t' => (a =? b)%N && eqb s' t'
  | _, _ => false
  end.

(** [s.startsWith(p)] *)
Fixpoint startsWith (s p : jsstring) {struct p} : bool :=
  match p, s with
  | [], _ => true
  | _ :: _, [] => false
  | a :: p', b :: s' => (a =? b)%N && startsWith s' p'
  end.

(** Position of the first occurrence of [needle] in [s], if any. *)
Fixpoint search (s needle : jsstring) : option nat :=
  if startsWith s needle then Some O
  else match s with
       | [] => None
       | _ :: s' => option_map S (search s' needle)
       end.

(** [s.indexOf(needle)]: the position of the first occurrence, or -1. *)
Definition indexOf (s needle : jsstring) : Z :=
  match search s needle with
  | Some i => Z.of_nat i
  | None => -1
  end.

(** [s.includes(needle)] *)
Definition includes (s needle : jsstring) : bool :=
  negb (indexOf s needle =? -1).

(** [s.endsWith(suffix)] *)
Definition endsWith (s suffix : jsstring) : bool :=
  (List.length suffix <=? List.length s)%nat
  && eqb (skipn (List.length s - List.length suffix) s) suffix.

Definition clamp (n i : Z) : Z := Z.max 0 (Z.min i n).

(** [s.substring(a, b)]: both indices are clamped to [0, s.length]
    and swapped when [a > b]. *)
Definition substring (s : jsstring) (a b : Z) : jsstring :=
  let a' := clamp (len s) a in
  let b' := clamp (len s) b in
  let lo := Z.min a' b' in
  let hi := Z.max a' b' in
  firstn (Z.to_nat (hi - lo)) (skipn (Z.to_nat lo) s).

(** [s.substring(a)] *)
Definition substring_from (s : jsstring) (a : Z) : jsstring :=
  substring s a (len s).

(** [String(n)] for an integral number [n]. *)
Definition ofNumber (n : Z) : jsstring :=
  str (NilEmpty.string_of_int (Z.to_int n)).

(** [xs.join(sep)] *)
Fixpoint join (sep : jsstring) (xs : list jsstring) : jsstring :=
  match xs with
  | [] => []
  | [x] => x
  | x :: rest => x ++ sep ++ join sep rest
  end.

(** A call that either returns or throws an [Error] with a message. *)
Inductive result (A : Type) : Type :=
| Ok (value : A)
| Throw (message : jsstring).
Arguments Ok {A} value.
Arguments Throw {A} message.

(** The observations the agent makes of a [Date] object. *)
Record Date : Type := mkDate {
  getTime : Z;
  toISOString : jsstring;
  toLocaleString : jsstring
}.

End JS.
Import JS.

(* ================================================================= *)
(** ** Data model *)

(** One entry of [pulls.listFiles] as the agent keeps it. *)
Module File.
Record t : Type := mk {
  filename : jsstring;
  status : jsstring;
  additions : Z;
  deletions : Z
}.
End File.

(** One entry of [pulls.listFiles] as the service sends it; the agent
    reads four of its fields. *)
Module ApiFile.
Record t : Type := mk {
  sha : jsstring;
  filename : jsstring;
  status : jsstring;
  additions : Z;
  deletions : Z;
  patch : option jsstring
}.
End ApiFile.

(** One entry of [pulls.list]. *)
Module PR.
Record t : Type := mk {
  number : Z;
  title : jsstring;
  body : option jsstring;
  merged_at : option jsstring
}.
End PR.

(** The [prAnalysis] object built for each analysed pull request. *)
Module PRAnalysis.
Record t : Type := mk {
  number : Z;
  title : jsstring;
  body : option jsstring;
  mergedAt : option jsstring;
  files : list File.t;
  summary : jsstring
}.
End PRAnalysis.

Module Analysis.
Record t : Type := mk {
  timestamp : jsstring;
  totalPRs : Z;
  recentPRs : list PRAnalysis.t;
  error : option jsstring
}.
End Analysis.

(** [baseTask] of [generateTasks]. *)
Module BaseTask.
Record t : Type := mk {
  id : jsstring;
  createdAt : jsstring;
  priority : jsstring;
  category : jsstring
}.
End BaseTask.

(** A task object: the spread of [baseTask] with [id] overridden and
    the five further properties added. *)
Module Task.
Record t : Type := mk {
  id : jsstring;
  createdAt : jsstring;
  priority : jsstring;
  category : jsstring;
  title : jsstring;
  description : jsstring;
  type : jsstring;
  estimatedHours : Z;
  files : list jsstring
}.

(** [{ ...base, id, title, description, type, estimatedHours, files }] *)
Definition spread (base : BaseTask.t) (id title description type : jsstring)
    (estimatedHours : Z) (files : list jsstring) : t :=
  {| id := id;
     createdAt := BaseTask.createdAt base;
     priority := BaseTask.priority base;
     category := BaseTask.category base;
     title := title;
     description := description;
     type := type;
     estimatedHours := estimatedHours;
     files := files |}.
End Task.

(* ================================================================= *)
(** ** Task synthesis: [generateTasks] *)

Definition hasWorkflowChanges (analysis : Analysis.t) : bool :=
  existsb (fun pr =>
    existsb (fun f => includes (File.filename f) (str ".github/workflows"))
            (PRAnalysis.files pr))
    (Analysis.recentPRs analysis).

Definition hasDocumentationChanges (analysis : Analysis.t) : bool :=
  existsb (fun pr =>
    existsb (fun f => endsWith (File.filename f) (str ".md"))
            (PRAnalysis.files pr))
    (Analysis.recentPRs analysis).

Definition hasNotebookChanges (analysis : Analysis.t) : bool :=
  existsb (fun pr =>
    existsb (fun f => endsWith (File.filename f) (str ".ipynb"))
            (PRAnalysis.files pr))
    (Analysis.recentPRs analysis).

Definition baseTask (now : Date) : BaseTask.t :=
  {| BaseTask.id := str "task-" ++ ofNumber (getTime now);
     BaseTask.createdAt := toISOString now;
     BaseTask.priority := str "medium";
     BaseTask.category := str "enhancement" |}.

Definition docTask (now : Date) : Task.t :=
  Task.spread (baseTask now)
    (str "doc-update-" ++ ofNumber (getTime now))
    (str "Enhance documentation with usage examples")
    (str "Add more detailed usage examples and troubleshooting guides to improve user experience")
    (str "documentation")
    2
    [str "README.md"].

Definition workflowTask (now : Date) : Task.t :=
  Task.spread (baseTask now)
    (str "workflow-opt-" ++ ofNumber (getTime now))
    (str "Optimize automated workflows")
    (str "Review and optimize GitHub Actions workflows for better performance and reliability")
    (str "automation")
    3
    [str ".github/workflows/*"].

Definition notebookTask (now : Date) : Task.t :=
  Task.spread (baseTask now)
    (str "notebook-enhance-" ++ ofNumber (getTime now))
    (str "Add error handling to notebook")
    (str "Improve error handling and user feedback in the Google Drive transfer notebook")
    (str "feature")
    4
    [str "rclone_gdrive_transfer.ipynb"].

Definition generalTask (now : Date) : Task.t :=
  Task.spread (baseTask now)
    (str "general-improve-" ++ ofNumber (getTime now))
    (str "General codebase improvements")
    (str "Review and improve code quality, add tests, or enhance user experience")
    (str "maintenance")
    2
    [str "README.md"; str "rclone_gdrive_transfer.ipynb"].

(** The tasks pushed inside [if (analysis.recentPRs.length > 0)]. *)
Definition patternTasks (now : Date) (analysis : Analysis.t) : list Task.t :=
  if (0 <? Z.of_nat (List.length (Analysis.recentPRs analysis))) then
    (if negb (hasDocumentationChanges analysis) then [docTask now] else [])
    ++ (if hasWorkflowChanges analysis then [workflowTask now] else [])
    ++ (if hasNotebookChanges analysis then [notebookTask now] else [])
  else [].

(** [generateTasks(analysis)], with [now] the value of [new Date()]. *)
Definition generateTasks (now : Date) (analysis : Analysis.t) : list Task.t :=
  let tasks := patternTasks now analysis in
  if (Z.of_nat (List.length tasks) =? 0) then tasks ++ [generalTask now]
  else tasks.

(** The four values the [type] property ranges over. *)
Definition taskTypes : list jsstring :=
  [str "documentation"; str "automation"; str "feature"; str "maintenance"].

(* ================================================================= *)
(** ** The README section: [generateProgressSection] *)

(** The literal ["## 🤖 Automated Development Status"]; the emoji U+1F916
    is the surrogate pair D83E DD16. *)
Definition progressMarker : jsstring :=
  str "## " ++ [0xD83E; 0xDD16]%N ++ str " Automated Development Status".

(** The literal ["## 📄 License"]; U+1F4C4 is the pair D83D DCC4. *)
Definition licenseMarker : jsstring :=
  str "## " ++ [0xD83D; 0xDCC4]%N ++ str " License".

(** The literal ["\n## "]. *)
Definition nextSectionMarker : jsstring := nl ++ str "## ".

(** One iteration of [tasks.forEach((task, index) => ...)]. *)
Definition taskEntry (index : nat) (task : Task.t) : jsstring :=
  ofNumber (Z.of_nat index + 1) ++ str ". **" ++ Task.title task ++ str "**" ++ nl
  ++ str "   - Type: " ++ Task.type task ++ nl
  ++ str "   - Priority: " ++ Task.priority task ++ nl
  ++ str "   - Estimated: " ++ ofNumber (Task.estimatedHours task) ++ str "h" ++ nl
  ++ str "   - Description: " ++ Task.description task ++ nl ++ nl.

Fixpoint taskEntries (index : nat) (tasks : list Task.t) : jsstring :=
  match tasks with
  | [] => []
  | task :: rest => taskEntry index task ++ taskEntries (S index) rest
  end.

Definition totalHours (tasks : list Task.t) : Z :=
  fold_left (fun sum task => sum + Task.estimatedHours task) tasks 0.

(** [generateProgressSection(tasks)], with [now] the value of [new Date()]. *)
Definition generateProgressSection (now : Date) (tasks : list Task.t) : jsstring :=
  let section := progressMarker ++ nl ++ nl in
  let section := section ++ str "*Last updated: " ++ toLocaleString now
                 ++ str " by Continuous Coding Agent*" ++ nl ++ nl in
  let section :=
    if (0 <? Z.of_nat (List.length tasks)) then
      section
      ++ (str "### " ++ [0xD83C; 0xDFAF]%N ++ str " Current Development Tasks" ++ nl ++ nl)
      ++ taskEntries 0 tasks
      ++ (str "### " ++ [0xD83D; 0xDCCA]%N ++ str " Development Metrics" ++ nl ++ nl)
      ++ (str "- Active tasks: " ++ ofNumber (Z.of_nat (List.length tasks)) ++ nl)
      ++ (str "- Total estimated hours: " ++ ofNumber (totalHours tasks) ++ str "h" ++ nl)
      ++ (str "- Agent status: " ++ [0x2705]%N ++ str " Active" ++ nl ++ nl)
    else
      section
      ++ (str "### " ++ [0x2705]%N ++ str " No Active Tasks" ++ nl ++ nl)
      ++ (str "The continuous agent has analyzed recent activity and found no immediate tasks requiring attention."
          ++ nl ++ nl) in
  section
  ++ str "*This section is automatically maintained by the continuous coding agent workflow.*"
  ++ nl.

(* ================================================================= *)
(** ** The section patcher: the string surgery of [updateReadmeProgress] *)

(** The new [readmeContent] computed by [updateReadmeProgress] from the
    content read and the generated [progressSection]. *)
Definition patchReadme (readmeContent progressSection : jsstring) : jsstring :=
  let existingProgressIndex := indexOf readmeContent progressMarker in
  if negb (existingProgressIndex =? -1) then
    let afterProgress :=
      substring_from readmeContent (existingProgressIndex + len progressMarker) in
    let nextSectionIndex := indexOf afterProgress nextSectionMarker in
    if negb (nextSectionIndex =? -1) then
      substring readmeContent 0 existingProgressIndex
      ++ progressSection
      ++ substring_from afterProgress nextSectionIndex
    else
      substring readmeContent 0 existingProgressIndex ++ progressSection
  else
    let licenseIndex := indexOf readmeContent licenseMarker in
    if negb (licenseIndex =? -1) then
      substring readmeContent 0 licenseIndex
      ++ progressSection ++ (nl ++ nl)
      ++ substring_from readmeContent licenseIndex
    else
      readmeContent ++ (nl ++ nl) ++ progressSection.

(* ================================================================= *)
(** ** Collaborators and the analyzer *)

(** What the agent consumes from its environment.  [World] is the state
    of everything outside the agent; a call may change it. *)
Class Collaborators (World : Type) : Type := {
  (** [octokit.pulls.list({state: 'closed', ...})] *)
  pulls_list : World -> result (list PR.t) * World;
  (** [octokit.pulls.listFiles({pull_number})] *)
  pulls_listFiles : Z -> World -> result (list ApiFile.t) * World;
  (** [new Date()] *)
  newDate : World -> Date;
  (** [path.extname] *)
  extname : jsstring -> jsstring;
  (** [fs.readFile(readmePath, 'utf8')] *)
  readFile : World -> result jsstring * World;
  (** [fs.writeFile(readmePath, content)] *)
  writeFile : jsstring -> World -> result unit * World
}.

(** Truthiness of a value that is [null] or a string. *)
Definition truthy (v : option jsstring) : bool :=
  match v with
  | Some (_ :: _) => true
  | _ => false
  end.

(** The [fileTypes] object: extension to count. *)
Definition counts : Type := list (jsstring * Z).

Fixpoint get (acc : counts) (key : jsstring) : option Z :=
  match acc with
  | [] => None
  | (k, v) :: rest => if JS.eqb k key then Some v else get rest key
  end.

Fixpoint set (acc : counts) (key : jsstring) (value : Z) : counts :=
  match acc with
  | [] => [(key, value)]
  | (k, v) :: rest =>
      if JS.eqb k key then (k, value) :: rest else (k, v) :: set rest key value
  end.

(** [acc[ext] || 0] *)
Definition orZero (v : option Z) : Z :=
  match v with
  | Some n => n
  | None => 0
  end.

(** Truthiness of [fileTypes[ext]]. *)
Definition present (acc : counts) (key : jsstring) : bool :=
  negb (orZero (get acc key) =? 0).

(** The filter [pr => pr.merged_at]. *)
Definition merged (pr : PR.t) : bool := truthy (PR.merged_at pr).

Section Agent.

Context {World : Type} {env : Collaborators World}.

Definition fileTypes (files : list File.t) : counts :=
  fold_left (fun acc file =>
               let ext := extname (File.filename file) in
               set acc ext (orZero (get acc ext) + 1))
            files [].

(** [generatePRSummary(pr, files)] *)
Definition generatePRSummary (pr : PR.t) (files : list File.t) : jsstring :=
  let fileTypes := fileTypes files in
  let categories :=
    (if present fileTypes (str ".md") then [str "documentation"] else [])
    ++ (if present fileTypes (str ".js") || present fileTypes (str ".json")
        then [str "automation"] else [])
    ++ (if present fileTypes (str ".yml") || present fileTypes (str ".yaml")
        then [str "workflows"] else [])
    ++ (if present fileTypes (str ".ipynb") then [str "notebook"] else []) in
  PR.title pr ++ str " - Modified " ++ ofNumber (Z.of_nat (List.length files))
  ++ str " files (" ++ join (str ", ") categories ++ str ")".

(** [files.map(f => ({filename, status, additions, deletions}))] *)
Definition keepFields (f : ApiFile.t) : File.t :=
  {| File.filename := ApiFile.filename f;
     File.status := ApiFile.status f;
     File.additions := ApiFile.additions f;
     File.deletions := ApiFile.deletions f |}.

(** The files of one pull request: the inner [try]/[catch] leaves
    [prAnalysis.files] at its initial [[]] when the call throws. *)
Definition fetchFiles (pr : PR.t) (w : World) : list File.t * World :=
  match pulls_listFiles (PR.number pr) w with
  | (Ok files, w') => (map keepFields files, w')
  | (Throw _, w') => ([], w')
  end.

(** One iteration of the [for] loop: the [prAnalysis] pushed. *)
Definition analyzePR (pr : PR.t) (w : World) : PRAnalysis.t * World :=
  let '(files, w') := fetchFiles pr w in
  ({| PRAnalysis.number := PR.number pr;
      PRAnalysis.title := PR.title pr;
      PRAnalysis.body := PR.body pr;
      PRAnalysis.mergedAt := PR.merged_at pr;
      PRAnalysis.files := files;
      PRAnalysis.summary := generatePRSummary pr files |}, w').

(** [for (const pr of ...) { ...; analysis.recentPRs.push(prAnalysis) }] *)
Fixpoint analyzeEach (prs : list PR.t) (w : World) : list PRAnalysis.t * World :=
  match prs with
  | [] => ([], w)
  | pr :: rest =>
      let '(prAnalysis, w1) := analyzePR pr w in
      let '(others, w2) := analyzeEach rest w1 in
      (prAnalysis :: others, w2)
  end.

(** [analyzeRecentPRs()] *)
Definition analyzeRecentPRs (w : World) : Analysis.t * World :=
  match pulls_list w with
  | (Ok prs, w1) =>
      let mergedPRs := filter merged prs in
      let timestamp := toISOString (newDate w1) in
      let '(recent, w2) := analyzeEach (firstn 5 mergedPRs) w1 in
      ({| Analysis.timestamp := timestamp;
          Analysis.totalPRs := Z.of_nat (List.length mergedPRs);
          Analysis.recentPRs := recent;
          Analysis.error := None |}, w2)
  | (Throw message, w1) =>
      ({| Analysis.timestamp := toISOString (newDate w1);
          Analysis.totalPRs := 0;
          Analysis.recentPRs := [];
          Analysis.error := Some message |}, w1)
  end.

(** [updateReadmeProgress(tasks)]: read, patch, write; a failure of
    either file operation is caught and only logged. *)
Definition updateReadmeProgress (tasks : list Task.t) (w : World) : World :=
  match readFile w with
  | (Ok readmeContent, w1) =>
      let progressSection := generateProgressSection (newDate w1) tasks in
      snd (writeFile (patchReadme readmeContent progressSection) w1)
  | (Throw _, w1) => w1
  end.

End Agent.

(** The [prAnalysis] of a pull request whose file listing failed. *)
Definition degraded (pr : PR.t) : PRAnalysis.t :=
  {| PRAnalysis.number := PR.number pr;
     PRAnalysis.title := PR.title pr;
     PRAnalysis.body := PR.body pr;
     PRAnalysis.mergedAt := PR.merged_at pr;
     PRAnalysis.files := [];
     PRAnalysis.summary := PR.title pr ++ str " - Modified 0 files ()" |}.

(* ================================================================= *)
(** ** Sample inputs *)

Module Sample.

(** A clock reading. *)
Definition now : Date :=
  {| getTime := 1754265616000;
     toISOString := str "2025-08-04T00:00:16.000Z";
     toLocaleString := str "8/4/2025, 12:00:16 AM" |}.

Definition file (path : string) : File.t :=
  {| File.filename := str path;
     File.status := str "modified";
     File.additions := 3;
     File.deletions := 1 |}.

Definition record (number : Z) (title : string) (files : list File.t)
    : PRAnalysis.t :=
  {| PRAnalysis.number := number;
     PRAnalysis.title := str title;
     PRAnalysis.body := None;
     PRAnalysis.mergedAt := Some (str "2025-01-02T10:00:00Z");
     PRAnalysis.files := files;
     PRAnalysis.summary := str title |}.

Definition analysis (total : Z) (records : list PRAnalysis.t) : Analysis.t :=
  {| Analysis.timestamp := str "2025-08-04T00:00:16.000Z";
     Analysis.totalPRs := total;
     Analysis.recentPRs := records;
     Analysis.error := None |}.

Definition emptyAnalysis : Analysis.t := analysis 0 [].

(** One record touching only ["pipeline/ci.yml"]. *)
Definition pipelineAnalysis : Analysis.t :=
  analysis 1 [record 7 "Add CI" [file "pipeline/ci.yml"]].

(** One record touching only [".github/workflows/ci.yml"]. *)
Definition workflowAnalysis : Analysis.t :=
  analysis 1 [record 7 "Add CI" [file ".github/workflows/ci.yml"]].

End Sample.

(** A collaborator instance for examples: the world is the number of
    service calls made so far; the listing returns seven closed pull
    requests, one of them unmerged, and the file listing of pull
    request 12 is unavailable. *)
Module SampleService.

Definition pull (number : Z) (title : string) (merged : bool) : PR.t :=
  {| PR.number := number;
     PR.title := str title;
     PR.body := None;
     PR.merged_at := if merged then Some (str "2025-01-02T10:00:00Z") else None |}.

Definition newest : PR.t := pull 14 "Tune transfers" true.

(** The pull request whose files cannot be listed. *)
Definition unlisted : PR.t := pull 12 "Add CI" true.

Definition older : list PR.t :=
  [pull 11 "Docs" true; pull 10 "Notebook" true; pull 9 "Setup" true].

Definition pulls : list PR.t :=
  [newest; pull 13 "Abandoned" false; unlisted] ++ older ++ [pull 8 "Init" true].

Definition changed (path : string) : ApiFile.t :=
  {| ApiFile.sha := str "bbcd538c8e72b8c175046e27cc8f907076331401";
     ApiFile.filename := str path;
     ApiFile.status := str "modified";
     ApiFile.additions := 10;
     ApiFile.deletions := 2;
     ApiFile.patch := None |}.

Definition clock (calls : nat) : Date :=
  {| getTime := 1754265616000 + Z.of_nat calls;
     toISOString := str "2025-08-04T00:00:16.000Z";
     toLocaleString := str "8/4/2025, 12:00:16 AM" |}.

Definition up : Collaborators nat :=
  {| pulls_list := fun calls => (Ok pulls, S calls);
     pulls_listFiles := fun number calls =>
       (if number =? 12 then Throw (str "Not Found")
        else Ok [changed "README.md"], S calls);
     newDate := clock;
     extname := fun _ => str ".md";
     readFile := fun calls => (Throw (str "ENOENT"), calls);
     writeFile := fun _ calls => (Ok tt, calls) |}.

(** The same service with the listing call itself failing. *)
Definition down : Collaborators nat :=
  {| pulls_list := fun calls => (Throw (str "Bad credentials"), S calls);
     pulls_listFiles := fun _ calls => (Throw (str "Bad credentials"), S calls);
     newDate := clock;
     extname := fun _ => str ".md";
     readFile := fun calls => (Throw (str "ENOENT"), calls);
     writeFile := fun _ calls => (Ok tt, calls) |}.

End SampleService.

(** READMEs to patch. *)
Module SampleReadme.

(** The section generated for the fallback task. *)
Definition section : jsstring :=
  generateProgressSection Sample.now
    (generateTasks Sample.now Sample.emptyAnalysis).

Definition intro : jsstring := str "# Tool" ++ nl ++ nl.

Definition licenseText : jsstring := nl ++ nl ++ str "MIT" ++ nl.

(** A README with the heading ["## 📄 License"] and no status section. *)
Definition withLicense : jsstring := intro ++ licenseMarker ++ licenseText.

(** A README whose license heading is the plain ["## License"]. *)
Definition withPlainLicense : jsstring :=
  intro ++ str "## License" ++ licenseText.

(** A README with neither heading. *)
Definition bare : jsstring := intro ++ str "Moves files." ++ nl.

(** A README that already holds a status section, followed by the
    license section. *)
Definition withStatus : jsstring :=
  intro ++ progressMarker ++ nl ++ nl ++ str "*Last updated: never*" ++ nl
  ++ nl ++ licenseMarker ++ licenseText.

(** The status section found in the repository's README, written for
    the notebook task alone. *)
Definition committedSection : jsstring :=
  progressMarker ++ nl
  ++ nl
  ++ str "*Last updated: 8/4/2025, 12:00:16 AM by Continuous Coding Agent*" ++ nl
  ++ nl
  ++ str "### " ++ [0xD83C; 0xDFAF]%N ++ str " Current Development Tasks" ++ nl
  ++ nl
  ++ str "1. **Add error handling to notebook**" ++ nl
  ++ str "   - Type: feature" ++ nl
  ++ str "   - Priority: medium" ++ nl
  ++ str "   - Estimated: 4h" ++ nl
  ++ str "   - Description: Improve error handling and user feedback in the Google Drive transfer notebook" ++ nl
  ++ nl
  ++ str "### " ++ [0xD83D; 0xDCCA]%N ++ str " Development Metrics" ++ nl
  ++ nl
  ++ str "- Active tasks: 1" ++ nl
  ++ str "- Total estimated hours: 4h" ++ nl
  ++ str "- Agent status: " ++ [0x2705]%N ++ str " Active" ++ nl
  ++ nl
  ++ str "*This section is automatically maintained by the continuous coding agent workflow.*" ++ nl.

End SampleReadme.

(* ================================================================= *)
(** ** The repository identity read by the constructor *)

(** [s.split('/')] *)
Fixpoint split (s : jsstring) : list jsstring :=
  match s with
  | [] => [[]]
  | c :: rest =>
      if (c =? 47)%N then [] :: split rest
      else match split rest with
           | first :: others => (c :: first) :: others
           | [] => [[c]]
           end
  end.

(** [value || fallback] for a value that is [undefined] or a string. *)
Definition orElse (value : option jsstring) (fallback : jsstring) : jsstring :=
  match value with
  | Some (c :: rest) => c :: rest
  | _ => fallback
  end.

(** [process.env.GITHUB_REPOSITORY?.split('/')[i]] *)
Definition part (GITHUB_REPOSITORY : option jsstring) (i : nat) : option jsstring :=
  match GITHUB_REPOSITORY with
  | Some value => nth_error (split value) i
  | None => None
  end.

(** [this.owner] and [this.repo] as the constructor sets them. *)
Definition owner (GITHUB_REPOSITORY : option jsstring) : jsstring :=
  orElse (part GITHUB_REPOSITORY 0) (str "dzp5103").

Definition repo (GITHUB_REPOSITORY : option jsstring) : jsstring :=
  orElse (part GITHUB_REPOSITORY 1) (str "gdrive-tranfer").

(** No slash in [s]. *)
Definition segment (s : jsstring) : Prop := Forall (fun u => u <> 47%N) s.

(* ================================================================= *)
(** ** The validator: [validate-workflow.js] *)

Module Validator.

Inductive outcome : Type := PASS | FAIL | WARN.

(** [this.results] *)
Record results : Type := mkResults {
  passed : Z;
  failed : Z;
  warnings : Z;
  details : list (outcome * jsstring)
}.

Definition initial : results :=
  {| passed := 0; failed := 0; warnings := 0; details := [] |}.

Definition pass (message : jsstring) (r : results) : results :=
  {| passed := passed r + 1;
     failed := failed r;
     warnings := warnings r;
     details := details r ++ [(PASS, message)] |}.

Definition fail (message : jsstring) (r : results) : results :=
  {| passed := passed r;
     failed := failed r + 1;
     warnings := warnings r;
     details := details r ++ [(FAIL, message)] |}.

Definition warn (message : jsstring) (r : results) : results :=
  {| passed := passed r;
     failed := failed r;
     warnings := warnings r + 1;
     details := details r ++ [(WARN, message)] |}.

(** What [JSON.parse] made of [package.json], as far as it is tested:
    the truthiness of [dependencies && dependencies['@octokit/rest']],
    of [name] and of [main]. *)
Record PackageJson : Type := mkPackageJson {
  octokit : bool;
  name : bool;
  main : bool
}.

(** An element of a parsed JSON array: [null], or a value on which
    [task[field] !== undefined] is decided by [defined]. *)
Inductive element : Type :=
| Null
| Object (defined : jsstring -> bool).

(** A parsed JSON text, as far as [Array.isArray] and the first element
    are concerned. *)
Inductive json : Type :=
| NotArray
| Array (elements : list element).

(** What the validator reads of the working directory. *)
Record Repo : Type := mkRepo {
  (** whether [fs.access(path)] succeeds *)
  access : jsstring -> bool;
  (** [fs.readFile(path, 'utf8')] *)
  readText : jsstring -> result jsstring;
  (** [JSON.parse(await fs.readFile('package.json', 'utf8'))] *)
  packageJson : result PackageJson;
  (** [JSON.parse(await fs.readFile('agent-workflow/latest-tasks.json', 'utf8'))] *)
  latestTasks : result json
}.

(** [description ? ` (${description})` : ''] *)
Definition described (description : option jsstring) : jsstring :=
  match description with
  | Some (c :: rest) => str " (" ++ (c :: rest) ++ str ")"
  | _ => []
  end.

(** [checkFile(filePath, required, description)] *)
Definition checkFile (repo : Repo) (filePath : jsstring) (required : bool)
    (description : option jsstring) (r : results) : results :=
  if access repo filePath then
    pass (str "File exists: " ++ filePath ++ described description) r
  else if required then
    fail (str "Required file missing: " ++ filePath) r
  else
    warn (str "Optional file missing: " ++ filePath ++ described description) r.

Definition requiredFiles : list jsstring :=
  [str "agent-workflow/continuous-agent.js";
   str "agent-workflow/README.md";
   str ".github/workflows/continuous-agent.yml";
   str "package.json";
   str ".gitignore"].

Definition generatedFiles : list jsstring :=
  [str "agent-workflow/latest-analysis.json";
   str "agent-workflow/latest-tasks.json"].

(** [validateCoreFiles()] *)
Definition validateCoreFiles (repo : Repo) (r : results) : results :=
  let r := fold_left (fun r file => checkFile repo file true None r) requiredFiles r in
  fold_left (fun r file =>
               checkFile repo file false (Some (str "Generated workflow data file")) r)
            generatedFiles r.

(** [validateDependencies()] *)
Definition validateDependencies (repo : Repo) (r : results) : results :=
  match packageJson repo with
  | Ok packageJson =>
      let r :=
        if negb (octokit packageJson)
        then fail (str "Missing required dependency: @octokit/rest") r
        else pass (str "GitHub API dependency present") r in
      let r :=
        if negb (name packageJson) || negb (main packageJson)
        then warn (str "Package.json missing some metadata fields") r
        else pass (str "Package.json structure valid") r in
      if access repo (str "node_modules")
      then pass (str "Dependencies installed (node_modules exists)") r
      else warn (str "Dependencies not installed (run npm install)") r
  | Throw message => fail (str "Error reading package.json: " ++ message) r
  end.

Definition requiredElements : list jsstring :=
  [str "name: Continuous Coding Agent";
   str "GH_PAT:";
   str "node agent-workflow/continuous-agent.js";
   str "pull_request:";
   str "schedule:"].

(** [validateWorkflowConfig()] *)
Definition validateWorkflowConfig (repo : Repo) (r : results) : results :=
  match readText repo (str ".github/workflows/continuous-agent.yml") with
  | Ok workflowContent =>
      let r :=
        fold_left (fun r element =>
                     if includes workflowContent element
                     then pass (str "Workflow contains: " ++ element) r
                     else fail (str "Workflow missing: " ++ element) r)
                  requiredElements r in
      if includes workflowContent (str "contents: write")
         && includes workflowContent (str "pull-requests: write")
      then pass (str "Workflow has required permissions") r
      else fail (str "Workflow missing required permissions") r
  | Throw message => fail (str "Error reading workflow file: " ++ message) r
  end.

Definition requiredMethods : list jsstring :=
  [str "run"; str "analyzeRecentPRs"; str "generateTasks";
   str "saveWorkflowData"; str "updateReadmeProgress"].

(** [validateAgentFunctionality()], with the agent of this development
    loaded and [now] the clock reading: the five methods exist, and
    task generation runs on the empty mock analysis. *)
Definition validateAgentFunctionality (now : Date) (r : results) : results :=
  let r :=
    fold_left (fun r method => pass (str "Agent method exists: " ++ method) r)
              requiredMethods r in
  let mockAnalysis :=
    {| Analysis.timestamp := toISOString now;
       Analysis.totalPRs := 0;
       Analysis.recentPRs := [];
       Analysis.error := None |} in
  let tasks := generateTasks now mockAnalysis in
  if (0 <? Z.of_nat (List.length tasks))
  then pass (str "Agent generates tasks with empty analysis") r
  else fail (str "Agent fails to generate fallback tasks") r.

Definition requiredFields : list jsstring :=
  [str "id"; str "title"; str "description"; str "type"; str "priority";
   str "estimatedHours"].

(** The inner [try] block of [validateIntegration()]. *)
Definition validateTaskData (repo : Repo) (r : results) : results :=
  match latestTasks repo with
  | Ok (Array (Object defined :: _)) =>
      if forallb defined requiredFields
      then pass (str "Task data structure is valid") r
      else fail (str "Task data structure is incomplete") r
  | Ok (Array (Null :: _)) =>
      warn (str "Could not validate task data structure") r
  | Ok _ => warn (str "No tasks in latest data (expected for new setup)") r
  | Throw _ => warn (str "Could not validate task data structure") r
  end.

(** [validateIntegration()] *)
Definition validateIntegration (repo : Repo) (r : results) : results :=
  match readText repo (str "README.md") with
  | Ok readmeContent =>
      let r :=
        if includes readmeContent progressMarker
        then pass (str "README contains automated status section") r
        else fail (str "README missing automated status section") r in
      let r :=
        if includes readmeContent (str "Continuous Coding Agent")
        then pass (str "README references the continuous agent") r
        else warn (str "README could better reference the agent") r in
      validateTaskData repo r
  | Throw message => fail (str "Error validating integration: " ++ message) r
  end.

(** [validate()] up to [printResults()]. *)
Definition validate (repo : Repo) (now : Date) : results :=
  validateIntegration repo
    (validateAgentFunctionality now
       (validateWorkflowConfig repo
          (validateDependencies repo
             (validateCoreFiles repo initial)))).

(** The exit status [printResults()] leaves: [process.exit(1)] when a
    check failed. *)
Definition exitStatus (r : results) : Z :=
  if failed r =? 0 then 0 else 1.



(** What [JSON.parse] makes of a task the agent saved: all nine
    properties are defined. *)
Definition savedTask (t : Task.t) : element :=
  Object (fun field =>
            existsb (JS.eqb field)
              [str "id"; str "createdAt"; str "priority"; str "category";
               str "title"; str "description"; str "type";
               str "estimatedHours"; str "files"]).

End Validator.

(** The conditions under which no check of the validator fails. *)
Definition coreFilesPresent (repo : Validator.Repo) : bool :=
  forallb (Validator.access repo) Validator.requiredFiles.

Definition dependencyDeclared (repo : Validator.Repo) : bool :=
  match Validator.packageJson repo with
  | Ok packageJson => Validator.octokit packageJson
  | Throw _ => false
  end.

Definition workflowConfigured (repo : Validator.Repo) : bool :=
  match Validator.readText repo (str ".github/workflows/continuous-agent.yml") with
  | Ok workflowContent =>
      forallb (includes workflowContent) Validator.requiredElements
      && (includes workflowContent (str "contents: write")
          && includes workflowContent (str "pull-requests: write"))
  | Throw _ => false
  end.

Definition taskDataComplete (repo : Validator.Repo) : bool :=
  match Validator.latestTasks repo with
  | Ok (Validator.Array (Validator.Object defined :: _)) =>
      forallb defined Validator.requiredFields
  | _ => true
  end.

Definition readmeMaintained (repo : Validator.Repo) : bool :=
  match Validator.readText repo (str "README.md") with
  | Ok readmeContent => includes readmeContent progressMarker && taskDataComplete repo
  | Throw _ => false
  end.

Definition accepts (repo : Validator.Repo) : bool :=
  coreFilesPresent repo && dependencyDeclared repo && workflowConfigured repo
  && readmeMaintained repo.

(** A working directory after a run of the agent on [SampleReadme.bare]:
    the README and the task file are the agent's; [node_modules] and
    [.gitignore] are missing and every other file reads as one line. *)
Definition sampleRepo : Validator.Repo :=
  {| Validator.access := fun path =>
       negb (JS.eqb path (str "node_modules") || JS.eqb path (str ".gitignore"));
     Validator.readText := fun path =>
       if JS.eqb path (str "README.md")
       then Ok (patchReadme SampleReadme.bare
                  (generateProgressSection Sample.now
                     (generateTasks Sample.now Sample.workflowAnalysis)))
       else Ok (str "name: Continuous Coding Agent");
     Validator.packageJson :=
       Ok {| Validator.octokit := true; Validator.name := true;
             Validator.main := false |};
     Validator.latestTasks :=
       Ok (Validator.Array
             (map Validator.savedTask
                (generateTasks Sample.now Sample.workflowAnalysis))) |}.

(* ================================================================= *)
(** ** Vocabulary for the further properties *)

(** [p] occurs in [s] at position [q]. *)
Definition occursAt (s p : jsstring) (q : nat) : bool :=
  startsWith (skipn q s) p.

(** No line feed in [s]. *)
Definition singleLine (s : jsstring) : Prop := Forall (fun u => u <> 10%N) s.

(** [x] occurs somewhere in [s]. *)
Definition infix (x s : jsstring) : Prop := exists a b, s = a ++ x ++ b.


(** The generated section is the status heading, [sectionHead], the
    local time and [sectionRest]; only the last depends on the tasks. *)
Definition sectionHead : jsstring := nl ++ nl ++ str "*Last updated: ".

Definition sectionRest (tasks : list Task.t) : jsstring :=
  str " by Continuous Coding Agent*" ++ nl ++ nl
  ++ (if (0 <? Z.of_nat (List.length tasks)) then
        (str "### " ++ [0xD83C; 0xDFAF]%N ++ str " Current Development Tasks" ++ nl ++ nl)
        ++ taskEntries 0 tasks
        ++ (str "### " ++ [0xD83D; 0xDCCA]%N ++ str " Development Metrics" ++ nl ++ nl)
        ++ (str "- Active tasks: " ++ ofNumber (Z.of_nat (List.length tasks)) ++ nl)
        ++ (str "- Total estimated hours: " ++ ofNumber (totalHours tasks) ++ str "h" ++ nl)
        ++ (str "- Agent status: " ++ [0x2705]%N ++ str " Active" ++ nl ++ nl)
      else
        (str "### " ++ [0x2705]%N ++ str " No Active Tasks" ++ nl ++ nl)
        ++ (str "The continuous agent has analyzed recent activity and found no immediate tasks requiring attention."
            ++ nl ++ nl))
  ++ str "*This section is automatically maintained by the continuous coding agent workflow.*"
  ++ nl.

(** The files whose extension is [ext]. *)
Definition withExtension {World : Type} {env : Collaborators World}
    (ext : jsstring) (files : list File.t) : list File.t :=
  filter (fun file => JS.eqb (extname (File.filename file)) ext) files.

(** The category list of a summary, read off the extensions present. *)
Definition categoriesOf {World : Type} {env : Collaborators World}
    (files : list File.t) : list jsstring :=
  let has ext := negb (Nat.eqb (List.length (withExtension ext files)) 0) in
  (if has (str ".md") then [str "documentation"] else [])
  ++ (if has (str ".js") || has (str ".json") then [str "automation"] else [])
  ++ (if has (str ".yml") || has (str ".yaml") then [str "workflows"] else [])
  ++ (if has (str ".ipynb") then [str "notebook"] else []).

(** An [extname] for examples: the text from the last dot of the last
    path segment, empty when the segment has no dot or only a leading
    one. *)
Fixpoint lastSegment (path acc : jsstring) : jsstring :=
  match path with
  | [] => acc
  | c :: rest => if (c =? 47)%N then lastSegment rest [] else lastSegment rest (acc ++ [c])
  end.

Fixpoint fromLastDot (segment : jsstring) (found : option jsstring) : jsstring :=
  match segment with
  | [] => match found with Some ext => ext | None => [] end
  | c :: rest =>
      if (c =? 46)%N then fromLastDot rest (Some [c])
      else fromLastDot rest (option_map (fun ext => ext ++ [c]) found)
  end.

Definition sampleExtname (path : jsstring) : jsstring :=
  match lastSegment path [] with
  | [] => []
  | c :: rest => fromLastDot rest None
  end.

(** The sample service with that [extname]. *)
Definition sampleFiles : Collaborators nat :=
  {| pulls_list := @pulls_list nat SampleService.up;
     pulls_listFiles := fun number calls =>
       (if number =? 12 then Throw (str "Not Found")
        else Ok [SampleService.changed "docs/guide.md";
                 SampleService.changed "agent-workflow/continuous-agent.js";
                 SampleService.changed "README.md"], S calls);
     newDate := SampleService.clock;
     extname := sampleExtname;
     readFile := @readFile nat SampleService.up;
     writeFile := @writeFile nat SampleService.up |}.

(** How a [prAnalysis] relates to the pull request it was built from. *)
Definition analysisOf {World : Type} {env : Collaborators World}
    (pr : PR.t) (prAnalysis : PRAnalysis.t) : Prop :=
  PRAnalysis.number prAnalysis = PR.number pr
  /\ PRAnalysis.title prAnalysis = PR.title pr
  /\ PRAnalysis.body prAnalysis = PR.body pr
  /\ PRAnalysis.mergedAt prAnalysis = PR.merged_at pr
  /\ PRAnalysis.summary prAnalysis
     = generatePRSummary pr (PRAnalysis.files prAnalysis).

(** The sample service with every file listing failing. *)
Definition sampleNoFiles : Collaborators nat :=
  {| pulls_list := @pulls_list nat SampleService.up;
     pulls_listFiles := fun _ calls => (Throw (str "Service Unavailable"), S calls);
     newDate := SampleService.clock;
     extname := sampleExtname;
     readFile := @readFile nat SampleService.up;
     writeFile := @writeFile nat SampleService.up |}.

(** [path] is the file name of a file of a recent record. *)
Definition touched (analysis : Analysis.t) (path : jsstring) : Prop :=
  exists pr file,
    In pr (Analysis.recentPRs analysis)
    /\ In file (PRAnalysis.files pr)
    /\ File.filename file = path.

(* ================================================================= *)
(** ** Properties of task synthesis *)

Lemma patternTasks_cases (now : Date) (analysis : Analysis.t) :
  exists (d w n : bool),
    patternTasks now analysis =
    (if d then [docTask now] else [])
    ++ (if w then [workflowTask now] else [])
    ++ (if n then [notebookTask now] else []).
Proof.
  unfold patternTasks.
  destruct (0 <? Z.of_nat (List.length (Analysis.recentPRs analysis))).
  - now exists (negb (hasDocumentationChanges analysis)),
               (hasWorkflowChanges analysis), (hasNotebookChanges analysis).
  - now exists false, false, false.
Qed.

Lemma generateTasks_cases (now : Date) (analysis : Analysis.t) :
  (patternTasks now analysis = []
   /\ generateTasks now analysis = [generalTask now])
  \/ (patternTasks now analysis <> []
      /\ generateTasks now analysis = patternTasks now analysis).
Proof.
  unfold generateTasks.
  destruct (patternTasks now analysis) as [|t ts] eqn:E.
  - left. split; reflexivity.
  - right. split; [discriminate | reflexivity].
Qed.

(** Every task in [ts] satisfies [P] as soon as the four task shapes do. *)
Lemma generateTasks_Forall (P : Task.t -> Prop) (now : Date) (analysis : Analysis.t) :
  P (docTask now) -> P (workflowTask now) -> P (notebookTask now) ->
  P (generalTask now) ->
  Forall P (generateTasks now analysis).
Proof.
  intros Hd Hw Hn Hg.
  destruct (generateTasks_cases now analysis) as [[_ ->] | [_ ->]].
  - repeat constructor; assumption.
  - destruct (patternTasks_cases now analysis) as (d & w & n & ->).
    destruct d, w, n; simpl; repeat constructor; assumption.
Qed.

(** C2, as the specification words it, fails: the task synthesized from
    an empty analysis carries [category = "enhancement"], the value
    spread from [baseTask], which is none of the four. *)
Lemma generateTasks_category_counterexample :
  exists t,
    In t (generateTasks Sample.now Sample.emptyAnalysis)
    /\ Task.category t = str "enhancement"
    /\ ~ In (Task.category t) taskTypes.
Proof.
  exists (generalTask Sample.now). split; [left; reflexivity|]. split; [reflexivity|].
  vm_compute. intros H.
  repeat (destruct H as [H|H]; [discriminate H|]). exact H.
Qed.

(** C2 (amended): for every analysis, every task returned by
    [generateTasks] has its [type] property equal to one of
    documentation, automation, feature, maintenance; its [category]
    property is always ["enhancement"]. *)
Theorem generateTasks_type_enum (now : Date) (analysis : Analysis.t) :
  Forall (fun t => In (Task.type t) taskTypes
                   /\ Task.category t = str "enhancement")
         (generateTasks now analysis).
Proof.
  apply generateTasks_Forall; (split; [|reflexivity]); unfold taskTypes; simpl; tauto.
Qed.

(** C3, as stated, fails: for the single path ["pipeline/ci.yml"] the
    synthesizer does not return two tasks; it returns the
    documentation task alone, since the path does not contain
    [".github/workflows"]. *)
Lemma generateTasks_pipeline_counterexample :
  generateTasks Sample.now Sample.pipelineAnalysis = [docTask Sample.now]
  /\ ~ (exists t1 t2,
          generateTasks Sample.now Sample.pipelineAnalysis = [t1; t2]).
Proof.
  assert (E : generateTasks Sample.now Sample.pipelineAnalysis
              = [docTask Sample.now]) by (vm_compute; reflexivity).
  split; [exact E|]. rewrite E. intros (t1 & t2 & H). discriminate H.
Qed.

(** C3 (amended): for an analysis with exactly one record whose only
    touched path ends in neither [".md"] nor [".ipynb"], the
    synthesizer returns, when the path contains [".github/workflows"],
    exactly two tasks in order, of type documentation then automation,
    and otherwise exactly the documentation task. *)
Theorem generateTasks_single_path
    (now : Date) (analysis : Analysis.t) (pr : PRAnalysis.t) (f : File.t) :
  Analysis.recentPRs analysis = [pr] ->
  PRAnalysis.files pr = [f] ->
  endsWith (File.filename f) (str ".md") = false ->
  endsWith (File.filename f) (str ".ipynb") = false ->
  Task.type (docTask now) = str "documentation"
  /\ Task.type (workflowTask now) = str "automation"
  /\ generateTasks now analysis =
     if includes (File.filename f) (str ".github/workflows")
     then [docTask now; workflowTask now]
     else [docTask now].
Proof.
  intros Hr Hf Hmd Hnb. split; [reflexivity|]. split; [reflexivity|].
  unfold generateTasks, patternTasks, hasDocumentationChanges,
    hasWorkflowChanges, hasNotebookChanges.
  rewrite Hr. cbn [List.length existsb]. rewrite Hf. cbn [existsb].
  rewrite Hmd, Hnb.
  destruct (includes (File.filename f) (str ".github/workflows")); reflexivity.
Qed.

Lemma generateTasks_single_path_witness :
  generateTasks Sample.now Sample.workflowAnalysis
  = [docTask Sample.now; workflowTask Sample.now].
Proof.
  exact (proj2 (proj2 (generateTasks_single_path Sample.now Sample.workflowAnalysis
           (Sample.record 7 "Add CI" [Sample.file ".github/workflows/ci.yml"])
           (Sample.file ".github/workflows/ci.yml")
           eq_refl eq_refl eq_refl eq_refl))).
Defined.

(** The fallback task is none of the three pattern tasks. *)
Lemma generalTask_not_pattern (now : Date) (analysis : Analysis.t) :
  ~ In (generalTask now) (patternTasks now analysis).
Proof.
  destruct (patternTasks_cases now analysis) as (d & w & n & ->).
  intros H.
  assert (Hty : forall t, t = generalTask now -> Task.type t = str "maintenance")
    by (intros t ->; reflexivity).
  destruct d, w, n; simpl in H;
    repeat (destruct H as [H|H];
            [apply Hty in H; vm_compute in H; discriminate H|]);
    exact H.
Qed.

(** C4: [generateTasks] never returns an empty list, whatever the
    analysis (in particular with [recentPRs = []]), and the fallback
    task is emitted exactly when the pattern rules produced nothing:
    either they produced nothing and the result is the fallback alone,
    or they produced something and the result is their output, which
    does not contain the fallback. *)
Theorem generateTasks_nonempty (now : Date) (analysis : Analysis.t) :
  (1 <= List.length (generateTasks now analysis))%nat
  /\ ((patternTasks now analysis = []
       /\ generateTasks now analysis = [generalTask now])
      \/ (patternTasks now analysis <> []
          /\ generateTasks now analysis = patternTasks now analysis
          /\ ~ In (generalTask now) (generateTasks now analysis))).
Proof.
  destruct (generateTasks_cases now analysis) as [[E G] | [E G]].
  - split; [rewrite G; simpl; lia|]. left. split; assumption.
  - split.
    + rewrite G. destruct (patternTasks now analysis); [congruence | simpl; lia].
    + right. repeat split; try assumption.
      rewrite G. apply generalTask_not_pattern.
Qed.

(** With no recent record the pattern rules are skipped altogether. *)
Lemma generateTasks_no_records (now : Date) (analysis : Analysis.t) :
  Analysis.recentPRs analysis = [] ->
  generateTasks now analysis = [generalTask now].
Proof.
  intros H. unfold generateTasks, patternTasks. rewrite H. reflexivity.
Qed.

(** C9: within one run of [generateTasks] the ids of the returned tasks
    are pairwise distinct: each rule has its own id prefix, so the
    shared timestamp suffix cannot make two of them equal. *)
Theorem generateTasks_ids_distinct (now : Date) (analysis : Analysis.t) :
  NoDup (map Task.id (generateTasks now analysis)).
Proof.
  destruct (generateTasks_cases now analysis) as [[_ ->] | [_ ->]].
  - simpl. constructor; [intros [] | constructor].
  - destruct (patternTasks_cases now analysis) as (d & w & n & ->).
    destruct d, w, n; simpl;
      repeat (constructor;
              [ simpl; intros H;
                repeat (destruct H as [H|H]; [discriminate H|]); exact H | ]);
      constructor.
Qed.

(** C10: at one clock instant, two analyses that agree on whether
    [recentPRs] is empty and on the three path tests yield the same
    task list; nothing else of the analysis (totals, titles, bodies,
    summaries, line counts) reaches the output. *)
Theorem generateTasks_noninterference (now : Date) (a1 a2 : Analysis.t) :
  (Analysis.recentPRs a1 = [] <-> Analysis.recentPRs a2 = []) ->
  hasDocumentationChanges a1 = hasDocumentationChanges a2 ->
  hasWorkflowChanges a1 = hasWorkflowChanges a2 ->
  hasNotebookChanges a1 = hasNotebookChanges a2 ->
  generateTasks now a1 = generateTasks now a2.
Proof.
  intros He Hd Hw Hn. unfold generateTasks, patternTasks.
  rewrite Hd, Hw, Hn.
  destruct (Analysis.recentPRs a1) as [|p1 r1], (Analysis.recentPRs a2) as [|p2 r2];
    try reflexivity.
  - destruct He as [He _]. specialize (He eq_refl). discriminate He.
  - destruct He as [_ He]. specialize (He eq_refl). discriminate He.
Qed.

Lemma generateTasks_noninterference_witness :
  generateTasks Sample.now
    (Sample.analysis 9
       [Sample.record 1 "Initial setup"
          [Sample.file "README.md"; Sample.file "rclone_gdrive_transfer.ipynb"]])
  = generateTasks Sample.now
      (Sample.analysis 2
         [Sample.record 4 "Notes" [Sample.file "docs/notes.md"];
          Sample.record 5 "Notebook" [Sample.file "demo.ipynb"]]).
Proof.
  apply generateTasks_noninterference.
  - split; intros H; discriminate H.
  - reflexivity.
  - reflexivity.
  - reflexivity.
Defined.

(* ================================================================= *)
(** ** Properties of the analyzer *)

Section AnalyzerFacts.

Context {World : Type} {env : Collaborators World}.

Lemma analyzePR_fields (pr : PR.t) (w : World) :
  PRAnalysis.number (fst (analyzePR pr w)) = PR.number pr
  /\ PRAnalysis.title (fst (analyzePR pr w)) = PR.title pr
  /\ PRAnalysis.summary (fst (analyzePR pr w))
     = generatePRSummary pr (PRAnalysis.files (fst (analyzePR pr w))).
Proof.
  unfold analyzePR. destruct (fetchFiles pr w) as [files w']. simpl. auto.
Qed.

Lemma analyzePR_throw (pr : PR.t) (w w' : World) (message : jsstring) :
  pulls_listFiles (PR.number pr) w = (Throw message, w') ->
  analyzePR pr w = (degraded pr, w').
Proof.
  intros H. unfold analyzePR, fetchFiles. rewrite H. reflexivity.
Qed.

Lemma analyzeEach_cons (pr : PR.t) (rest : list PR.t) (w : World) :
  analyzeEach (pr :: rest) w =
  (fst (analyzePR pr w) :: fst (analyzeEach rest (snd (analyzePR pr w))),
   snd (analyzeEach rest (snd (analyzePR pr w)))).
Proof.
  simpl. destruct (analyzePR pr w) as [pa w1]. simpl.
  destruct (analyzeEach rest w1) as [others w2]. reflexivity.
Qed.

(** The loop pushes one entry per pull request, in order. *)
Lemma analyzeEach_numbers (prs : list PR.t) (w : World) :
  map PRAnalysis.number (fst (analyzeEach prs w)) = map PR.number prs.
Proof.
  revert w. induction prs as [|pr rest IH]; intros w; [reflexivity|].
  rewrite analyzeEach_cons. simpl. rewrite IH.
  f_equal. apply analyzePR_fields.
Qed.

Lemma analyzeEach_length (prs : list PR.t) (w : World) :
  List.length (fst (analyzeEach prs w)) = List.length prs.
Proof.
  rewrite <- (length_map PRAnalysis.number), analyzeEach_numbers.
  apply length_map.
Qed.

(** The loop over [before ++ pr :: after] is the loop over [before],
    then the iteration for [pr], then the loop over [after]. *)
Lemma analyzeEach_app (before after : list PR.t) (w : World) :
  analyzeEach (before ++ after) w =
  (fst (analyzeEach before w)
   ++ fst (analyzeEach after (snd (analyzeEach before w))),
   snd (analyzeEach after (snd (analyzeEach before w)))).
Proof.
  revert w. induction before as [|pr rest IH]; intros w.
  - simpl. destruct (analyzeEach after w). reflexivity.
  - rewrite <- app_comm_cons, !analyzeEach_cons, IH. reflexivity.
Qed.

Lemma analyzeRecentPRs_ok (prs : list PR.t) (w w1 : World) :
  pulls_list w = (Ok prs, w1) ->
  analyzeRecentPRs w =
  ({| Analysis.timestamp := toISOString (newDate w1);
      Analysis.totalPRs := Z.of_nat (List.length (filter merged prs));
      Analysis.recentPRs :=
        fst (analyzeEach (firstn 5 (filter merged prs)) w1);
      Analysis.error := None |},
   snd (analyzeEach (firstn 5 (filter merged prs)) w1)).
Proof.
  intros H. unfold analyzeRecentPRs. rewrite H.
  destruct (analyzeEach (firstn 5 (filter merged prs)) w1). reflexivity.
Qed.

Lemma analyzeRecentPRs_throw (message : jsstring) (w w1 : World) :
  pulls_list w = (Throw message, w1) ->
  analyzeRecentPRs w =
  ({| Analysis.timestamp := toISOString (newDate w1);
      Analysis.totalPRs := 0;
      Analysis.recentPRs := [];
      Analysis.error := Some message |}, w1).
Proof.
  intros H. unfold analyzeRecentPRs. rewrite H. reflexivity.
Qed.

(** C5: every analysis produced by [analyzeRecentPRs] has
    [totalPRs >= recentPRs.length] and [recentPRs.length <= 5]; when
    the listing succeeds [totalPRs] is the number of all merged pull
    requests listed, uncapped, and [recentPRs] are the first five of
    them in listing order; when it fails both are empty. *)
Theorem analyzeRecentPRs_invariant (w : World) :
  let analysis := fst (analyzeRecentPRs w) in
  Z.of_nat (List.length (Analysis.recentPRs analysis)) <= Analysis.totalPRs analysis
  /\ (List.length (Analysis.recentPRs analysis) <= 5)%nat
  /\ match fst (pulls_list w) with
     | Ok prs =>
         Analysis.totalPRs analysis = Z.of_nat (List.length (filter merged prs))
         /\ map PRAnalysis.number (Analysis.recentPRs analysis)
            = map PR.number (firstn 5 (filter merged prs))
     | Throw _ =>
         Analysis.totalPRs analysis = 0 /\ Analysis.recentPRs analysis = []
     end.
Proof.
  destruct (pulls_list w) as [[prs|message] w1] eqn:E; cbn zeta.
  - rewrite (analyzeRecentPRs_ok prs w w1 E). cbn [fst Analysis.totalPRs Analysis.recentPRs].
    rewrite analyzeEach_length, length_firstn.
    repeat split; try lia. apply analyzeEach_numbers.
  - rewrite (analyzeRecentPRs_throw message w w1 E). simpl. repeat split; lia.
Qed.

(** C6: when the listing call throws, [analyzeRecentPRs] still
    returns an analysis: [totalPRs = 0], [recentPRs = []] and [error]
    set to the message of the failure. *)
Theorem analyzeRecentPRs_listing_failure
    (message : jsstring) (w w1 : World) :
  pulls_list w = (Throw message, w1) ->
  Analysis.totalPRs (fst (analyzeRecentPRs w)) = 0
  /\ Analysis.recentPRs (fst (analyzeRecentPRs w)) = []
  /\ Analysis.error (fst (analyzeRecentPRs w)) = Some message
  /\ Analysis.timestamp (fst (analyzeRecentPRs w)) = toISOString (newDate w1).
Proof.
  intros H. rewrite (analyzeRecentPRs_throw message w w1 H). simpl. auto.
Qed.

(** C8: when the file listing of one of the analysed pull requests
    throws, that pull request is still pushed to [recentPRs], with
    [files = []] and its summary attached; the records before it are
    unaffected, the loop goes on with the records after it, no
    record is dropped and no error is reported for the run. *)
Theorem analyzeRecentPRs_files_failure
    (prs before after : list PR.t) (pr : PR.t)
    (message : jsstring) (w w0 w2 : World) :
  pulls_list w = (Ok prs, w0) ->
  firstn 5 (filter merged prs) = before ++ pr :: after ->
  pulls_listFiles (PR.number pr) (snd (analyzeEach before w0))
    = (Throw message, w2) ->
  let analysis := fst (analyzeRecentPRs w) in
  Analysis.recentPRs analysis
    = fst (analyzeEach before w0) ++ degraded pr :: fst (analyzeEach after w2)
  /\ generatePRSummary pr [] = PRAnalysis.summary (degraded pr)
  /\ List.length (Analysis.recentPRs analysis)
     = List.length (firstn 5 (filter merged prs))
  /\ Analysis.error analysis = None.
Proof.
  intros Hl Hs Hf analysis. subst analysis.
  rewrite (analyzeRecentPRs_ok prs w w0 Hl).
  cbn [fst Analysis.recentPRs Analysis.error].
  rewrite analyzeEach_length. repeat split.
  rewrite Hs, analyzeEach_app. cbn [fst]. f_equal.
  rewrite analyzeEach_cons, (analyzePR_throw _ _ _ _ Hf). reflexivity.
Qed.

End AnalyzerFacts.

Lemma analyzeRecentPRs_files_failure_witness :
  let analysis := fst (@analyzeRecentPRs nat SampleService.up 0%nat) in
  Analysis.recentPRs analysis
    = fst (@analyzeEach nat SampleService.up [SampleService.newest] 1%nat)
      ++ degraded SampleService.unlisted
      :: fst (@analyzeEach nat SampleService.up SampleService.older 3%nat)
  /\ @generatePRSummary nat SampleService.up SampleService.unlisted []
     = PRAnalysis.summary (degraded SampleService.unlisted)
  /\ List.length (Analysis.recentPRs analysis)
     = List.length (firstn 5 (filter merged SampleService.pulls))
  /\ Analysis.error analysis = None.
Proof.
  apply (@analyzeRecentPRs_files_failure nat SampleService.up
           SampleService.pulls [SampleService.newest] SampleService.older
           SampleService.unlisted (str "Not Found") 0%nat 1%nat 3%nat).
  - reflexivity.
  - reflexivity.
  - reflexivity.
Defined.

Lemma analyzeRecentPRs_listing_failure_witness :
  Analysis.totalPRs (fst (@analyzeRecentPRs nat SampleService.down 0%nat)) = 0
  /\ Analysis.recentPRs (fst (@analyzeRecentPRs nat SampleService.down 0%nat)) = []
  /\ Analysis.error (fst (@analyzeRecentPRs nat SampleService.down 0%nat))
     = Some (str "Bad credentials")
  /\ Analysis.timestamp (fst (@analyzeRecentPRs nat SampleService.down 0%nat))
     = toISOString (SampleService.clock 1).
Proof.
  apply (@analyzeRecentPRs_listing_failure nat SampleService.down
           (str "Bad credentials") 0%nat 1%nat).
  reflexivity.
Defined.

(* ================================================================= *)
(** ** Facts about the string primitives *)

Section StringFacts.

Lemma startsWith_app (p rest : jsstring) : startsWith (p ++ rest) p = true.
Proof.
  induction p as [|a p IH]; [reflexivity|].
  simpl. now rewrite N.eqb_refl, IH.
Qed.

Lemma startsWith_split (s p : jsstring) :
  startsWith s p = true -> s = p ++ skipn (List.length p) s.
Proof.
  revert s. induction p as [|a p IH]; intros s H; [reflexivity|].
  destruct s as [|b s]; [discriminate H|].
  simpl in H. apply andb_prop in H as [Hab Hp].
  apply N.eqb_eq in Hab. subst b. simpl. f_equal. now apply IH.
Qed.

(** Only the first [length p] units of [s] matter. *)
Lemma startsWith_long (s rest p : jsstring) :
  (List.length p <= List.length s)%nat ->
  startsWith (s ++ rest) p = startsWith s p.
Proof.
  revert s. induction p as [|a p IH]; intros s H; [reflexivity|].
  destruct s as [|b s]; [simpl in H; lia|].
  simpl in *. rewrite IH by lia. reflexivity.
Qed.

Lemma search_unfold (s p : jsstring) :
  search s p =
  if startsWith s p then Some O
  else match s with
       | [] => None
       | _ :: s' => option_map S (search s' p)
       end.
Proof. destruct s; reflexivity. Qed.

Lemma search_bound (s p : jsstring) (i : nat) :
  search s p = Some i -> (i <= List.length s)%nat.
Proof.
  revert i. induction s as [|c s IH]; intros i H; simpl in H.
  - destruct (startsWith [] p); inversion H; simpl; lia.
  - destruct (startsWith (c :: s) p); [inversion H; simpl; lia|].
    destruct (search s p) as [j|]; [|discriminate H].
    inversion H. specialize (IH j eq_refl). simpl. lia.
Qed.

(** [search] returns the start of an occurrence. *)
Lemma search_split (s p : jsstring) (i : nat) :
  search s p = Some i ->
  exists pre post, s = pre ++ p ++ post /\ List.length pre = i.
Proof.
  revert i. induction s as [|c s IH]; intros i H; simpl in H.
  - destruct (startsWith [] p) eqn:E; [|discriminate H].
    inversion H. exists [], (skipn (List.length p) []).
    split; [now apply startsWith_split | reflexivity].
  - destruct (startsWith (c :: s) p) eqn:E.
    + inversion H. exists [], (skipn (List.length p) (c :: s)).
      split; [now apply startsWith_split | reflexivity].
    + destruct (search s p) as [j|]; [|discriminate H].
      inversion H. destruct (IH j eq_refl) as (pre & post & -> & Hl).
      exists (c :: pre), post. split; [reflexivity | simpl; now rewrite Hl].
Qed.

(** Where the first occurrence starts does not depend on what follows it. *)
Lemma search_first_frame (pre p rest rest' : jsstring) :
  search (pre ++ p ++ rest) p = Some (List.length pre) ->
  search (pre ++ p ++ rest') p = Some (List.length pre).
Proof.
  induction pre as [|c pre IH]; intros H.
  - cbn [app List.length]. now rewrite search_unfold, startsWith_app.
  - simpl in H |- *.
    replace (c :: pre ++ p ++ rest) with ((c :: pre ++ p) ++ rest) in H
      by (simpl; now rewrite <- app_assoc).
    replace (c :: pre ++ p ++ rest') with ((c :: pre ++ p) ++ rest')
      by (simpl; now rewrite <- app_assoc).
    rewrite startsWith_long in H |- * by (simpl; rewrite length_app; lia).
    destruct (startsWith (c :: pre ++ p) p); [discriminate H|].
    destruct (search (pre ++ p ++ rest) p) as [j|] eqn:E; [|discriminate H].
    inversion H. subst j. now rewrite IH.
Qed.

Lemma indexOf_found (s p : jsstring) :
  indexOf s p <> -1 ->
  exists i, search s p = Some i /\ indexOf s p = Z.of_nat i.
Proof.
  unfold indexOf. destruct (search s p) as [i|]; [|congruence].
  intros _. now exists i.
Qed.

Lemma indexOf_absent (s p : jsstring) :
  indexOf s p = -1 -> search s p = None.
Proof.
  unfold indexOf. destruct (search s p) as [i|]; [lia | reflexivity].
Qed.

Lemma substring_nat (s : jsstring) (i j : nat) :
  (i <= j <= List.length s)%nat ->
  substring s (Z.of_nat i) (Z.of_nat j) = firstn (j - i) (skipn i s).
Proof.
  intros H. unfold substring, clamp, len.
  rewrite (Z.min_l (Z.of_nat i)), (Z.min_l (Z.of_nat j)) by lia.
  rewrite !(Z.max_r 0) by lia.
  rewrite Z.min_l, Z.max_r by lia.
  now rewrite <- Nat2Z.inj_sub, !Nat2Z.id by lia.
Qed.

Lemma substring_prefix (pre post : jsstring) :
  substring (pre ++ post) 0 (Z.of_nat (List.length pre)) = pre.
Proof.
  change 0 with (Z.of_nat 0).
  rewrite substring_nat by (rewrite length_app; lia).
  rewrite Nat.sub_0_r. simpl.
  now rewrite firstn_app, firstn_all, Nat.sub_diag, firstn_O, app_nil_r.
Qed.

Lemma substring_suffix (pre post : jsstring) :
  substring_from (pre ++ post) (Z.of_nat (List.length pre)) = post.
Proof.
  unfold substring_from, len.
  rewrite substring_nat by (rewrite length_app; lia).
  rewrite skipn_app, skipn_all, Nat.sub_diag. simpl.
  apply firstn_all2. rewrite length_app. lia.
Qed.

End StringFacts.

(* ================================================================= *)
(** ** Properties of the section patcher *)

Lemma patchReadme_no_marker (doc section : jsstring) :
  indexOf doc progressMarker = -1 ->
  patchReadme doc section =
  if negb (indexOf doc licenseMarker =? -1)
  then substring doc 0 (indexOf doc licenseMarker)
       ++ section ++ (nl ++ nl)
       ++ substring_from doc (indexOf doc licenseMarker)
  else doc ++ (nl ++ nl) ++ section.
Proof.
  intros H. unfold patchReadme. rewrite H. reflexivity.
Qed.

(** C7, as stated, fails: a README without the status heading whose
    license heading is ["## License"] is left whole and the section is
    appended after it; whatever the separator, the section is not put
    before the heading. *)
Lemma patchReadme_plain_license_counterexample :
  indexOf SampleReadme.withPlainLicense progressMarker = -1
  /\ indexOf SampleReadme.withPlainLicense (str "## License") = 8
  /\ patchReadme SampleReadme.withPlainLicense SampleReadme.section
     = SampleReadme.withPlainLicense ++ (nl ++ nl) ++ SampleReadme.section
  /\ ~ (exists separator,
          patchReadme SampleReadme.withPlainLicense SampleReadme.section
          = SampleReadme.intro ++ SampleReadme.section ++ separator
            ++ str "## License" ++ SampleReadme.licenseText).
Proof.
  assert (E : patchReadme SampleReadme.withPlainLicense SampleReadme.section
              = SampleReadme.withPlainLicense ++ (nl ++ nl) ++ SampleReadme.section)
    by (vm_compute; reflexivity).
  repeat split; try (vm_compute; reflexivity).
  rewrite E. intros (separator & H).
  apply (f_equal (fun s => nth 11 s 0%N)) in H.
  vm_compute in H. discriminate H.
Qed.

(** What [patchReadme] does when the status heading is absent and the
    license heading first occurs right after [pre]. *)
Lemma patchReadme_license (pre post section : jsstring) :
  indexOf (pre ++ licenseMarker ++ post) progressMarker = -1 ->
  search (pre ++ licenseMarker ++ post) licenseMarker = Some (List.length pre) ->
  patchReadme (pre ++ licenseMarker ++ post) section
  = pre ++ section ++ (nl ++ nl) ++ licenseMarker ++ post.
Proof.
  intros Hm Hs. rewrite (patchReadme_no_marker _ _ Hm).
  unfold indexOf. rewrite Hs.
  replace (Z.of_nat (List.length pre) =? -1) with false
    by (symmetry; apply Z.eqb_neq; lia).
  cbn [negb]. now rewrite substring_prefix, substring_suffix.
Qed.

(** C7 (amended): patching a README that contains no status heading
    but does contain the heading ["## 📄 License"] inserts the section,
    followed by two line feeds, immediately before the first occurrence
    of that heading; everything before and everything from the heading
    on is kept as it was. *)
Theorem patchReadme_inserts_before_license (doc section : jsstring) :
  indexOf doc progressMarker = -1 ->
  indexOf doc licenseMarker <> -1 ->
  exists pre post,
    doc = pre ++ licenseMarker ++ post
    /\ len pre = indexOf doc licenseMarker
    /\ patchReadme doc section
       = pre ++ section ++ (nl ++ nl) ++ licenseMarker ++ post.
Proof.
  intros Hm Hl.
  destruct (indexOf_found _ _ Hl) as (i & Hs & Hi).
  destruct (search_split _ _ _ Hs) as (pre & post & Hdoc & Hlen).
  exists pre, post. subst i. split; [exact Hdoc|].
  split; [symmetry; exact Hi|].
  subst doc. now apply patchReadme_license.
Qed.

Lemma patchReadme_inserts_before_license_witness :
  exists pre post,
    SampleReadme.withLicense = pre ++ licenseMarker ++ post
    /\ len pre = indexOf SampleReadme.withLicense licenseMarker
    /\ patchReadme SampleReadme.withLicense SampleReadme.section
       = pre ++ SampleReadme.section ++ (nl ++ nl) ++ licenseMarker ++ post.
Proof.
  apply patchReadme_inserts_before_license.
  - vm_compute. reflexivity.
  - vm_compute. discriminate.
Defined.

(** C1 fails on the insert-before-license path: the first patch puts two
    line feeds between the section and the license heading; the second
    patch takes the second of them as the start of the next section and
    drops the first, so the two results differ by one code unit. *)
Theorem patchReadme_twice_before_license :
  indexOf SampleReadme.withLicense progressMarker = -1
  /\ patchReadme SampleReadme.withLicense SampleReadme.section
     = SampleReadme.intro ++ SampleReadme.section ++ (nl ++ nl)
       ++ licenseMarker ++ SampleReadme.licenseText
  /\ patchReadme (patchReadme SampleReadme.withLicense SampleReadme.section)
       SampleReadme.section
     = SampleReadme.intro ++ SampleReadme.section ++ nl
       ++ licenseMarker ++ SampleReadme.licenseText
  /\ patchReadme (patchReadme SampleReadme.withLicense SampleReadme.section)
       SampleReadme.section
     <> patchReadme SampleReadme.withLicense SampleReadme.section.
Proof.
  repeat split; try (vm_compute; reflexivity).
  intros H. apply (f_equal (@List.length N)) in H.
  vm_compute in H. discriminate H.
Qed.

(** *** The second run of the patcher, in general *)

Lemma substring_from_nat (s : jsstring) (i : nat) :
  (i <= List.length s)%nat -> substring_from s (Z.of_nat i) = skipn i s.
Proof.
  intros H. unfold substring_from, len. rewrite substring_nat by lia.
  apply firstn_all2. rewrite length_skipn. lia.
Qed.

Lemma search_none_cons (c : N) (s p : jsstring) :
  search (c :: s) p = None ->
  startsWith (c :: s) p = false /\ search s p = None.
Proof.
  rewrite search_unfold. destruct (startsWith (c :: s) p); [discriminate|].
  destruct (search s p); [discriminate | auto].
Qed.

Lemma search_skip (c : N) (s p : jsstring) (i : nat) :
  startsWith (c :: s) p = false ->
  search s p = Some i ->
  search (c :: s) p = Some (S i).
Proof.
  intros H1 H2. rewrite search_unfold, H1, H2. reflexivity.
Qed.

(** What [patchReadme] does when the status heading is present. *)
Lemma patchReadme_marker (pre after section : jsstring) :
  search (pre ++ progressMarker ++ after) progressMarker
    = Some (List.length pre) ->
  patchReadme (pre ++ progressMarker ++ after) section =
  match search after nextSectionMarker with
  | Some j => pre ++ section ++ skipn j after
  | None => pre ++ section
  end.
Proof.
  intros Hs. unfold patchReadme, indexOf. rewrite Hs.
  replace (Z.of_nat (List.length pre) =? -1) with false
    by (symmetry; apply Z.eqb_neq; lia).
  cbn [negb]. rewrite substring_prefix.
  replace (Z.of_nat (List.length pre) + len progressMarker)
    with (Z.of_nat (List.length (pre ++ progressMarker)))
    by (unfold len; rewrite length_app; lia).
  rewrite (app_assoc pre progressMarker after), substring_suffix.
  destruct (search after nextSectionMarker) as [j|] eqn:E.
  - replace (Z.of_nat j =? -1) with false by (symmetry; apply Z.eqb_neq; lia).
    cbn [negb]. rewrite substring_from_nat by (eapply search_bound; eassumption).
    reflexivity.
  - reflexivity.
Qed.

(** An occurrence of ["\n## "] that starts inside [c :: t] and runs
    into a following ["\n## "] lies inside [c :: t] already. *)
Lemma boundary_no_straddle (c : N) (t rest : jsstring) :
  startsWith (c :: t) nextSectionMarker = false ->
  startsWith (c :: t ++ nextSectionMarker ++ rest) nextSectionMarker = false.
Proof.
  change nextSectionMarker with [10; 35; 35; 32]%N.
  destruct t as [|a [|b [|d t]]]; cbn; intros H;
    repeat match goal with
           | |- context [(?x =? ?y)%N] => destruct (x =? y)%N eqn:?; cbn
           end;
    cbn in *; congruence.
Qed.

(** The same for a single line feed appended. *)
Lemma boundary_not_completed_by_nl (c : N) (t : jsstring) :
  startsWith (c :: t) nextSectionMarker = false ->
  startsWith (c :: t ++ nl) nextSectionMarker = false.
Proof.
  change nextSectionMarker with [10; 35; 35; 32]%N. change nl with [10%N].
  destruct t as [|a [|b [|d t]]]; cbn; intros H;
    repeat match goal with
           | |- context [(?x =? ?y)%N] => destruct (x =? y)%N eqn:?; cbn
           end;
    cbn in *; congruence.
Qed.

Lemma search_boundary_after (tail rest : jsstring) :
  search tail nextSectionMarker = None ->
  search (tail ++ nextSectionMarker ++ rest) nextSectionMarker
    = Some (List.length tail).
Proof.
  induction tail as [|c t IH]; intros H.
  - cbn [app List.length]. now rewrite search_unfold, startsWith_app.
  - apply search_none_cons in H as [H1 H2].
    cbn [app List.length]. apply search_skip; [|now apply IH].
    now apply boundary_no_straddle.
Qed.

Lemma search_none_nl (tail : jsstring) :
  search tail nextSectionMarker = None ->
  search (tail ++ nl) nextSectionMarker = None.
Proof.
  induction tail as [|c t IH]; intros H; [reflexivity|].
  apply search_none_cons in H as [H1 H2].
  cbn [app]. rewrite search_unfold, boundary_not_completed_by_nl, IH by assumption.
  reflexivity.
Qed.

(** A pattern without line feed cannot match across one. *)
Lemma startsWith_before_nl (p s rest : jsstring) :
  Forall (fun u => u <> 10%N) p ->
  startsWith (s ++ nl ++ rest) p = true -> startsWith s p = true.
Proof.
  intros Hp. revert s. induction Hp as [|a p Ha Hp IH]; intros s H; [reflexivity|].
  destruct s as [|b s]; cbn in H |- *.
  - apply andb_prop in H as [H _]. apply N.eqb_eq in H. contradiction.
  - apply andb_prop in H as [H1 H2]. rewrite H1. cbn. now apply IH.
Qed.

Lemma progressMarker_no_nl : Forall (fun u => u <> 10%N) progressMarker.
Proof.
  apply Forall_forall. intros u Hu.
  assert (H : forallb (fun u => negb (u =? 10)%N) progressMarker = true)
    by (vm_compute; reflexivity).
  rewrite forallb_forall in H. specialize (H u Hu).
  apply negb_true_iff, N.eqb_neq in H. exact H.
Qed.

(** No proper non-empty suffix of the status heading is a prefix of it. *)
Lemma progressMarker_unbordered (k : nat) :
  (0 < k < List.length progressMarker)%nat ->
  startsWith progressMarker (skipn k progressMarker) = false.
Proof.
  intros Hk.
  assert (H : forallb (fun k => negb (startsWith progressMarker (skipn k progressMarker)))
                (seq 1 (List.length progressMarker - 1)) = true)
    by (vm_compute; reflexivity).
  rewrite forallb_forall in H. apply negb_true_iff, H, in_seq. lia.
Qed.

Lemma startsWith_overlap (s rest p : jsstring) :
  (List.length s <= List.length p)%nat ->
  startsWith (s ++ rest) p = true ->
  startsWith rest (skipn (List.length s) p) = true.
Proof.
  revert p. induction s as [|b s IH]; intros p Hl H; [exact H|].
  destruct p as [|a p]; [simpl in Hl; lia|].
  cbn in H. apply andb_prop in H as [_ H]. apply IH; [simpl in Hl; lia | exact H].
Qed.

(** The first status heading of [doc ++ "\n\n" ++ section]. *)
Lemma search_marker_appended (doc tail : jsstring) :
  search doc progressMarker = None ->
  search ((doc ++ nl ++ nl) ++ progressMarker ++ tail) progressMarker
    = Some (List.length (doc ++ nl ++ nl)).
Proof.
  induction doc as [|c d IH]; intros H.
  - vm_compute. reflexivity.
  - apply search_none_cons in H as [H1 H2].
    cbn [app List.length]. apply search_skip; [|now apply IH].
    destruct (startsWith (c :: (d ++ nl ++ nl) ++ progressMarker ++ tail)
                progressMarker) eqn:E; [|reflexivity].
    rewrite <- H1. symmetry.
    apply (startsWith_before_nl progressMarker (c :: d)
             (nl ++ progressMarker ++ tail) progressMarker_no_nl).
    rewrite <- E. f_equal. cbn [app]. now rewrite <- !app_assoc.
Qed.

(** The first status heading of [pre ++ section ++ ...] when
    [pre ++ rest] has none. *)
Lemma search_marker_inserted (pre rest tail : jsstring) :
  search (pre ++ rest) progressMarker = None ->
  search (pre ++ progressMarker ++ tail) progressMarker
    = Some (List.length pre).
Proof.
  induction pre as [|c p IH]; intros H.
  - cbn [app List.length]. now rewrite search_unfold, startsWith_app.
  - cbn [app] in H. apply search_none_cons in H as [H1 H2].
    cbn [app List.length]. apply search_skip; [|now apply IH].
    destruct (Nat.le_gt_cases (List.length progressMarker) (List.length (c :: p)))
      as [Hlong|Hshort].
    + rewrite <- H1.
      change (c :: p ++ progressMarker ++ tail) with ((c :: p) ++ progressMarker ++ tail).
      change (c :: p ++ rest) with ((c :: p) ++ rest).
      now rewrite !startsWith_long.
    + destruct (startsWith (c :: p ++ progressMarker ++ tail) progressMarker) eqn:E;
        [|reflexivity].
      apply (startsWith_overlap (c :: p)) in E; [|lia].
      rewrite startsWith_long in E by (rewrite length_skipn; lia).
      rewrite progressMarker_unbordered in E; [discriminate E | simpl in *; lia].
Qed.

(** The sibling paths are idempotent: when the README already holds the
    status heading, or holds neither heading, a second patch with the
    same section (the heading followed by text free of ["\n## "])
    changes nothing. *)
Lemma patchReadme_idempotent_elsewhere (doc tail : jsstring) :
  search tail nextSectionMarker = None ->
  indexOf doc progressMarker <> -1 \/ indexOf doc licenseMarker = -1 ->
  let section := progressMarker ++ tail in
  patchReadme (patchReadme doc section) section = patchReadme doc section.
Proof.
  intros Ht Hcase section.
  destruct (Z.eq_dec (indexOf doc progressMarker) (-1)) as [Hm|Hm].
  - (* appended at the end *)
    destruct Hcase as [Hcase|Hl]; [contradiction|].
    rewrite (patchReadme_no_marker _ _ Hm), Hl, Z.eqb_refl. cbn [negb].
    apply indexOf_absent in Hm.
    replace (doc ++ (nl ++ nl) ++ section)
      with ((doc ++ nl ++ nl) ++ progressMarker ++ tail)
      by (subst section; now rewrite <- !app_assoc).
    rewrite patchReadme_marker by now apply search_marker_appended.
    now rewrite Ht.
  - (* replaced in place *)
    destruct (indexOf_found _ _ Hm) as (i & Hs & _).
    destruct (search_split _ _ _ Hs) as (pre & after & -> & <-).
    rewrite (patchReadme_marker _ _ _ Hs).
    destruct (search after nextSectionMarker) as [j|] eqn:E.
    + destruct (search_split _ _ _ E) as (a1 & a2 & -> & <-).
      rewrite skipn_app, skipn_all, Nat.sub_diag. cbn [app skipn].
      replace (pre ++ section ++ nextSectionMarker ++ a2)
        with (pre ++ progressMarker ++ (tail ++ nextSectionMarker ++ a2))
        by (subst section; now rewrite <- !app_assoc).
      rewrite patchReadme_marker by (eapply search_first_frame; eassumption).
      rewrite search_boundary_after by assumption.
      now rewrite skipn_app, skipn_all, Nat.sub_diag.
    + replace (pre ++ section) with (pre ++ progressMarker ++ tail)
        by (subst section; reflexivity).
      rewrite patchReadme_marker by (eapply search_first_frame; eassumption).
      now rewrite Ht.
Qed.

(** X6: The insert-before-license path is not: the second patch always
    removes one of the two line feeds the first one put after the
    section. *)
Lemma patchReadme_second_run_before_license (doc tail : jsstring) :
  search tail nextSectionMarker = None ->
  indexOf doc progressMarker = -1 ->
  indexOf doc licenseMarker <> -1 ->
  let section := progressMarker ++ tail in
  exists pre post,
    doc = pre ++ licenseMarker ++ post
    /\ patchReadme doc section
       = pre ++ section ++ (nl ++ nl) ++ licenseMarker ++ post
    /\ patchReadme (patchReadme doc section) section
       = pre ++ section ++ nl ++ licenseMarker ++ post
    /\ patchReadme (patchReadme doc section) section <> patchReadme doc section.
Proof.
  intros Ht Hm Hl section.
  destruct (indexOf_found _ _ Hl) as (i & Hs & _).
  destruct (search_split _ _ _ Hs) as (pre & post & Hdoc & <-).
  assert (H1 : patchReadme doc section
               = pre ++ section ++ (nl ++ nl) ++ licenseMarker ++ post)
    by (rewrite Hdoc in Hm, Hs |- *; now apply patchReadme_license).
  exists pre, post. split; [exact Hdoc|]. split; [exact H1|].
  assert (H2 : patchReadme (patchReadme doc section) section
               = pre ++ section ++ nl ++ licenseMarker ++ post).
  { rewrite H1.
    set (rest := skipn 3 licenseMarker ++ post).
    replace (pre ++ section ++ (nl ++ nl) ++ licenseMarker ++ post)
      with (pre ++ progressMarker ++ ((tail ++ nl) ++ nextSectionMarker ++ rest))
      by (subst section rest; rewrite <- !app_assoc; reflexivity).
    rewrite patchReadme_marker.
    - rewrite search_boundary_after by now apply search_none_nl.
      rewrite skipn_app, skipn_all, Nat.sub_diag. cbn [app skipn].
      subst section rest. rewrite <- !app_assoc. reflexivity.
    - apply search_marker_inserted with (rest := licenseMarker ++ post).
      rewrite <- Hdoc. now apply indexOf_absent. }
  split; [exact H2|].
  rewrite H2, H1. intros H. apply (f_equal (@List.length N)) in H.
  rewrite !length_app in H. simpl in H. lia.
Qed.

(** The embedding reproduces, unit for unit, the status section committed
    in the repository's README. *)
Example generateProgressSection_committed :
  generateProgressSection Sample.now [notebookTask Sample.now]
  = SampleReadme.committedSection.
Proof. vm_compute. reflexivity. Qed.

(** The two idempotent paths at work on the generated section. *)
Example patchReadme_twice_elsewhere :
  patchReadme (patchReadme SampleReadme.bare SampleReadme.section)
    SampleReadme.section
  = patchReadme SampleReadme.bare SampleReadme.section
  /\ patchReadme (patchReadme SampleReadme.withStatus SampleReadme.section)
       SampleReadme.section
     = patchReadme SampleReadme.withStatus SampleReadme.section.
Proof.
  pose (tail := skipn (List.length progressMarker) SampleReadme.section).
  assert (Hs : SampleReadme.section = progressMarker ++ tail)
    by (vm_compute; reflexivity).
  assert (Ht : search tail nextSectionMarker = None)
    by (vm_compute; reflexivity).
  rewrite Hs. split.
  - apply (patchReadme_idempotent_elsewhere SampleReadme.bare tail Ht).
    right. vm_compute. reflexivity.
  - apply (patchReadme_idempotent_elsewhere SampleReadme.withStatus tail Ht).
    left. vm_compute. discriminate.
Qed.

(* ================================================================= *)
(** ** Further properties of the section patcher *)

Lemma startsWith_length (s p : jsstring) :
  startsWith s p = true -> (List.length p <= List.length s)%nat.
Proof.
  revert s. induction p as [|a p IH]; intros s H; [simpl; lia|].
  destruct s as [|b s]; [discriminate H|].
  cbn in H. apply andb_prop in H as [_ H]. apply IH in H. simpl. lia.
Qed.

Lemma startsWith_extend (s rest p : jsstring) :
  startsWith s p = true -> startsWith (s ++ rest) p = true.
Proof.
  intros H. rewrite startsWith_long; [exact H | now apply startsWith_length].
Qed.

(** [search] finds every occurrence: none lies before the one returned,
    and [None] means there is none at all. *)
Lemma search_minimal (s p : jsstring) (i q : nat) :
  search s p = Some i -> (q < i)%nat -> occursAt s p q = false.
Proof.
  unfold occursAt. revert i q. induction s as [|c s IH]; intros i q H Hq.
  - rewrite search_unfold in H. destruct (startsWith [] p); inversion H; lia.
  - rewrite search_unfold in H. destruct (startsWith (c :: s) p) eqn:E.
    + inversion H. lia.
    + destruct (search s p) as [j|] eqn:Ej; [|discriminate H].
      inversion H. subst i. destruct q as [|q]; [exact E|].
      cbn [skipn]. apply (IH j); [reflexivity | lia].
Qed.

Lemma search_none_occurs (s p : jsstring) (q : nat) :
  search s p = None -> occursAt s p q = false.
Proof.
  unfold occursAt. revert q. induction s as [|c s IH]; intros q H.
  - rewrite search_unfold in H. destruct (startsWith [] p) eqn:E; [discriminate H|].
    now destruct q.
  - apply search_none_cons in H as [H1 H2].
    destruct q as [|q]; [exact H1 | now apply IH].
Qed.

Lemma search_occurs (s p : jsstring) (i : nat) :
  search s p = Some i -> occursAt s p i = true.
Proof.
  intros H. destruct (search_split _ _ _ H) as (pre & post & -> & <-).
  unfold occursAt. rewrite skipn_app, skipn_all, Nat.sub_diag. cbn [app skipn].
  apply startsWith_app.
Qed.

Lemma search_app_found (a p b : jsstring) :
  exists i, search (a ++ p ++ b) p = Some i.
Proof.
  induction a as [|c a [i IH]]; cbn [app]; rewrite search_unfold.
  - rewrite startsWith_app. now exists O.
  - destruct (startsWith (c :: a ++ p ++ b) p); [now exists O|].
    rewrite IH. now exists (S i).
Qed.

Lemma includes_app (a p b : jsstring) : includes (a ++ p ++ b) p = true.
Proof.
  unfold includes, indexOf. destruct (search_app_found a p b) as [i ->].
  apply negb_true_iff, Z.eqb_neq. lia.
Qed.

Lemma occursAt_app_left (a b p : jsstring) (q : nat) :
  (q + List.length p <= List.length a)%nat ->
  occursAt (a ++ b) p q = occursAt a p q.
Proof.
  intros H. unfold occursAt. rewrite skipn_app.
  replace (q - List.length a)%nat with O by lia. cbn [skipn].
  apply startsWith_long. rewrite length_skipn. lia.
Qed.

Lemma occursAt_app_right (a b p : jsstring) (q : nat) :
  occursAt (a ++ b) p (List.length a + q) = occursAt b p q.
Proof.
  unfold occursAt. rewrite skipn_app, skipn_all2 by lia.
  now replace (List.length a + q - List.length a)%nat with q by lia.
Qed.

(** A line feed is a barrier for a pattern without line feed. *)
Lemma occursAt_barrier (a b p : jsstring) (q : nat) :
  singleLine p -> p <> [] ->
  occursAt (a ++ nl ++ b) p q = true ->
  ((q + List.length p <= List.length a)%nat /\ occursAt a p q = true)
  \/ exists r, q = (List.length a + 1 + r)%nat /\ occursAt b p r = true.
Proof.
  intros Hp Hne H.
  destruct (Nat.le_gt_cases q (List.length a)) as [Hq|Hq].
  - left. unfold occursAt in H |- *. rewrite skipn_app in H.
    replace (q - List.length a)%nat with O in H by lia. cbn [skipn] in H.
    apply startsWith_before_nl in H; [|exact Hp].
    split; [|exact H]. apply startsWith_length in H.
    rewrite length_skipn in H. lia.
  - right. exists (q - List.length a - 1)%nat. split; [lia|].
    replace q with (List.length (a ++ nl) + (q - List.length a - 1))%nat in H
      by (rewrite length_app; simpl; lia).
    rewrite app_assoc, occursAt_app_right in H. exact H.
Qed.

(** An occurrence of the status heading that starts before another
    one ends before it. *)
Lemma occursAt_before_marker (a b : jsstring) (q : nat) :
  (q < List.length a)%nat ->
  occursAt (a ++ progressMarker ++ b) progressMarker q = true ->
  (q + List.length progressMarker <= List.length a)%nat.
Proof.
  intros Hq H.
  destruct (Nat.le_gt_cases (q + List.length progressMarker) (List.length a))
    as [Hl|Hl]; [exact Hl | exfalso].
  unfold occursAt in H. rewrite skipn_app in H.
  replace (q - List.length a)%nat with O in H by lia. cbn [skipn] in H.
  apply startsWith_overlap in H; [|rewrite length_skipn; lia].
  rewrite startsWith_long in H by (rewrite !length_skipn; lia).
  rewrite progressMarker_unbordered in H; [discriminate H|].
  rewrite length_skipn. lia.
Qed.

Lemma progressMarker_nonempty : progressMarker <> [].
Proof. discriminate. Qed.

(** The occurrences of the status heading in [pre ++ section ++ rest],
    when [pre] and [rest] hold none and [rest] is empty or starts a
    new line. *)
Lemma marker_occurrences (pre tail rest : jsstring) :
  (forall q, (q + List.length progressMarker <= List.length pre)%nat ->
             occursAt pre progressMarker q = true -> False) ->
  (forall q, occursAt (progressMarker ++ tail) progressMarker q = true -> q = O) ->
  rest = [] \/ (exists x, rest = nl ++ x
                  /\ forall r, occursAt x progressMarker r = true -> False) ->
  forall p,
    occursAt (pre ++ (progressMarker ++ tail) ++ rest) progressMarker p = true
    <-> p = List.length pre.
Proof.
  intros Hpre Hsec Hrest p. split.
  - intros H. destruct (Nat.lt_ge_cases p (List.length pre)) as [Hp|Hp].
    + exfalso. rewrite <- !app_assoc in H.
      pose proof (occursAt_before_marker _ _ _ Hp H) as Hl.
      rewrite occursAt_app_left in H by exact Hl. exact (Hpre p Hl H).
    + replace p with (List.length pre + (p - List.length pre))%nat in H by lia.
      rewrite occursAt_app_right in H.
      enough (p - List.length pre = 0)%nat by lia.
      destruct Hrest as [->|(x & -> & Hx)].
      * rewrite app_nil_r in H. now apply Hsec.
      * apply occursAt_barrier in H;
          [|exact progressMarker_no_nl | exact progressMarker_nonempty].
        destruct H as [[_ H]|(r & _ & H)]; [now apply Hsec | destruct (Hx r H)].
  - intros ->.
    replace (List.length pre) with (List.length pre + 0)%nat by lia.
    rewrite occursAt_app_right. unfold occursAt. cbn [skipn].
    rewrite <- app_assoc. apply startsWith_app.
Qed.

(** The four ways [patchReadme] rebuilds the README. *)
Lemma patchReadme_cases (doc section : jsstring) :
  (exists pre after,
      doc = pre ++ progressMarker ++ after
      /\ search doc progressMarker = Some (List.length pre)
      /\ search after nextSectionMarker = None
      /\ patchReadme doc section = pre ++ section)
  \/ (exists pre body rest,
         doc = pre ++ progressMarker ++ body ++ nextSectionMarker ++ rest
         /\ search doc progressMarker = Some (List.length pre)
         /\ search (body ++ nextSectionMarker ++ rest) nextSectionMarker
            = Some (List.length body)
         /\ patchReadme doc section = pre ++ section ++ nextSectionMarker ++ rest)
  \/ (exists pre post,
         doc = pre ++ licenseMarker ++ post
         /\ search doc progressMarker = None
         /\ search doc licenseMarker = Some (List.length pre)
         /\ patchReadme doc section
            = pre ++ section ++ (nl ++ nl) ++ licenseMarker ++ post)
  \/ (search doc progressMarker = None
      /\ search doc licenseMarker = None
      /\ patchReadme doc section = doc ++ (nl ++ nl) ++ section).
Proof.
  destruct (search doc progressMarker) as [i|] eqn:Hs.
  - destruct (search_split _ _ _ Hs) as (pre & after & Hdoc & <-).
    subst doc. rewrite (patchReadme_marker _ _ _ Hs).
    destruct (search after nextSectionMarker) as [j|] eqn:E.
    + right. left.
      destruct (search_split _ _ _ E) as (body & rest & Hafter & <-).
      subst after. exists pre, body, rest.
      rewrite skipn_app, skipn_all, Nat.sub_diag. cbn [app skipn]. auto.
    + left. exists pre, after. auto.
  - assert (Hm : indexOf doc progressMarker = -1)
      by (unfold indexOf; now rewrite Hs).
    right. right.
    destruct (search doc licenseMarker) as [i|] eqn:Hl.
    + left. destruct (search_split _ _ _ Hl) as (pre & post & Hdoc & <-).
      exists pre, post. subst doc. rewrite (patchReadme_license _ _ _ Hm Hl). auto.
    + right. rewrite (patchReadme_no_marker _ _ Hm).
      unfold indexOf. rewrite Hl, Z.eqb_refl. auto.
Qed.

Lemma occursAt_nil (p : jsstring) (q : nat) : p <> [] -> occursAt [] p q = false.
Proof.
  intros H. unfold occursAt. destruct q; destruct p; cbn; congruence.
Qed.

Lemma occursAt_after_nl (x : jsstring) (r : nat) :
  occursAt (nl ++ x) progressMarker r = true ->
  exists r', r = S r' /\ occursAt x progressMarker r' = true.
Proof.
  intros H.
  apply (occursAt_barrier [] x) in H;
    [|exact progressMarker_no_nl | exact progressMarker_nonempty].
  destruct H as [[H _]|(r' & -> & H)].
  - simpl in H. lia.
  - now exists r'.
Qed.

(** X2: the patcher keeps the README at one status heading.  When the
    README holds at most one occurrence of the heading and the section
    holds exactly one, at its start, the patched README holds exactly
    one occurrence. *)
Theorem patchReadme_single_marker (doc tail : jsstring) :
  (forall p q, occursAt doc progressMarker p = true ->
               occursAt doc progressMarker q = true -> p = q) ->
  (forall q, occursAt (progressMarker ++ tail) progressMarker q = true -> q = O) ->
  exists i, forall p,
    occursAt (patchReadme doc (progressMarker ++ tail)) progressMarker p = true
    <-> p = i.
Proof.
  intros Hdoc Hsec.
  assert (Hlen : (0 < List.length progressMarker)%nat) by (vm_compute; lia).
  destruct (patchReadme_cases doc (progressMarker ++ tail))
    as [(pre & after & E & Hs & _ & ->)
       |[(pre & body & rest & E & Hs & _ & ->)
        |[(pre & post & E & Hs & _ & ->)
         |(Hs & _ & ->)]]].
  - (* replaced to the end of the file *)
    exists (List.length pre). intros p.
    rewrite <- (app_nil_r (progressMarker ++ tail)).
    apply marker_occurrences; [|exact Hsec|now left].
    intros q Hq H. apply search_occurs in Hs.
    specialize (Hdoc q (List.length pre)). rewrite E in Hdoc at 1.
    rewrite occursAt_app_left in Hdoc by exact Hq.
    specialize (Hdoc H Hs). lia.
  - (* replaced up to the next heading *)
    exists (List.length pre). intros p.
    apply marker_occurrences; [|exact Hsec|].
    + intros q Hq H. apply search_occurs in Hs.
      specialize (Hdoc q (List.length pre)). rewrite E in Hdoc at 1.
      rewrite occursAt_app_left in Hdoc by exact Hq.
      specialize (Hdoc H Hs). lia.
    + right. exists (str "## " ++ rest). split; [reflexivity|].
      intros r H. apply search_occurs in Hs.
      specialize (Hdoc (List.length (pre ++ progressMarker ++ body ++ nl) + r)%nat
                       (List.length pre)).
      replace doc with ((pre ++ progressMarker ++ body ++ nl) ++ str "## " ++ rest)
        in Hdoc at 1 by (rewrite E, <- !app_assoc; reflexivity).
      rewrite occursAt_app_right in Hdoc. specialize (Hdoc H Hs).
      rewrite !length_app in Hdoc. lia.
  - (* inserted before the license heading *)
    exists (List.length pre). intros p.
    replace (pre ++ (progressMarker ++ tail) ++ (nl ++ nl) ++ licenseMarker ++ post)
      with (pre ++ (progressMarker ++ tail) ++ nl ++ (nl ++ licenseMarker ++ post))
      by (now rewrite <- !app_assoc).
    apply marker_occurrences; [|exact Hsec|].
    + intros q Hq H.
      rewrite <- (occursAt_app_left pre (licenseMarker ++ post)) in H by exact Hq.
      rewrite <- E, search_none_occurs in H by exact Hs. discriminate H.
    + right. exists (nl ++ licenseMarker ++ post). split; [reflexivity|].
      intros r H. apply occursAt_after_nl in H as (r' & _ & H).
      rewrite <- (occursAt_app_right pre) in H.
      rewrite <- E, search_none_occurs in H by exact Hs. discriminate H.
  - (* appended *)
    exists (List.length (doc ++ nl ++ nl)). intros p.
    replace (doc ++ (nl ++ nl) ++ progressMarker ++ tail)
      with ((doc ++ nl ++ nl) ++ (progressMarker ++ tail) ++ [])
      by (now rewrite app_nil_r, <- !app_assoc).
    apply marker_occurrences; [|exact Hsec|now left].
    intros q _ H.
    apply occursAt_barrier in H;
      [|exact progressMarker_no_nl | exact progressMarker_nonempty].
    destruct H as [[_ H]|(r & _ & H)].
    + rewrite search_none_occurs in H by exact Hs. discriminate H.
    + rewrite <- (app_nil_r nl) in H. apply occursAt_after_nl in H as (r' & _ & H).
      rewrite occursAt_nil in H by exact progressMarker_nonempty. discriminate H.
Qed.

(** Two checks that compute: the only occurrence is the one [search]
    returns when the text after it holds none. *)
Lemma occursAt_only (s p : jsstring) (i : nat) :
  search s p = Some i ->
  search (skipn (S i) s) p = None ->
  forall q, occursAt s p q = true -> q = i.
Proof.
  intros Hs Hn q H.
  destruct (Nat.lt_trichotomy q i) as [Hq|[Hq|Hq]]; [|exact Hq|].
  - rewrite (search_minimal _ _ _ _ Hs Hq) in H. discriminate H.
  - pose proof (search_none_occurs _ _ (q - S i) Hn) as Hf.
    unfold occursAt in Hf, H. rewrite skipn_skipn in Hf.
    replace (q - S i + S i)%nat with q in Hf by lia. congruence.
Qed.

Lemma occursAt_never (s p : jsstring) :
  search s p = None ->
  forall q q', occursAt s p q = true -> occursAt s p q' = true -> q = q'.
Proof.
  intros Hn q q' H. rewrite (search_none_occurs _ _ _ Hn) in H. discriminate H.
Qed.

Lemma patchReadme_single_marker_witness :
  exists i, forall p,
    occursAt (patchReadme SampleReadme.withStatus SampleReadme.section)
      progressMarker p = true
    <-> p = i.
Proof.
  change SampleReadme.section
    with (progressMarker ++ skipn (List.length progressMarker) SampleReadme.section).
  apply patchReadme_single_marker.
  - assert (H : forall q, occursAt SampleReadme.withStatus progressMarker q = true
                          -> q = 8%nat)
      by (apply occursAt_only; vm_compute; reflexivity).
    intros p q Hp Hq. rewrite (H p Hp), (H q Hq). reflexivity.
  - apply (occursAt_only _ progressMarker 0); vm_compute; reflexivity.
Defined.

(** X1: the replace path (the status heading is present).  The span
    from the first status heading up to the next ["\n## "], or to the
    end of the README when there is none, is replaced by the section;
    what precedes the heading and what starts at the next heading is
    kept as it was. *)
Theorem patchReadme_replaces_span (doc section : jsstring) :
  indexOf doc progressMarker <> -1 ->
  exists pre after,
    doc = pre ++ progressMarker ++ after
    /\ len pre = indexOf doc progressMarker
    /\ ((indexOf after nextSectionMarker = -1
         /\ patchReadme doc section = pre ++ section)
        \/ (exists body rest,
               after = body ++ nextSectionMarker ++ rest
               /\ len body = indexOf after nextSectionMarker
               /\ patchReadme doc section
                  = pre ++ section ++ nextSectionMarker ++ rest)).
Proof.
  intros Hm. unfold indexOf in Hm |- *.
  destruct (patchReadme_cases doc section)
    as [(pre & after & E & Hs & Ha & ->)
       |[(pre & body & rest & E & Hs & Ha & ->)
        |[(pre & post & _ & Hs & _)
         |(Hs & _)]]];
    rewrite Hs in Hm |- *; try congruence.
  - exists pre, after. repeat split; try assumption.
    left. unfold indexOf. rewrite Ha. auto.
  - exists pre, (body ++ nextSectionMarker ++ rest). repeat split; try assumption.
    right. exists body, rest. unfold indexOf. rewrite Ha. auto.
Qed.

Lemma patchReadme_replaces_span_witness :
  exists pre after,
    SampleReadme.withStatus = pre ++ progressMarker ++ after
    /\ len pre = indexOf SampleReadme.withStatus progressMarker
    /\ ((indexOf after nextSectionMarker = -1
         /\ patchReadme SampleReadme.withStatus SampleReadme.section
            = pre ++ SampleReadme.section)
        \/ (exists body rest,
               after = body ++ nextSectionMarker ++ rest
               /\ len body = indexOf after nextSectionMarker
               /\ patchReadme SampleReadme.withStatus SampleReadme.section
                  = pre ++ SampleReadme.section ++ nextSectionMarker ++ rest)).
Proof.
  apply patchReadme_replaces_span. vm_compute. discriminate.
Defined.

Lemma patchReadme_has_marker (doc tail : jsstring) :
  exists i, search (patchReadme doc (progressMarker ++ tail)) progressMarker = Some i.
Proof.
  destruct (patchReadme_cases doc (progressMarker ++ tail))
    as [(pre & after & _ & _ & _ & ->)
       |[(pre & body & rest & _ & _ & _ & ->)
        |[(pre & post & _ & _ & _ & ->)
         |(_ & _ & ->)]]].
  - apply search_app_found.
  - rewrite <- app_assoc. apply search_app_found.
  - rewrite <- app_assoc. apply search_app_found.
  - replace (doc ++ (nl ++ nl) ++ progressMarker ++ tail)
      with ((doc ++ nl ++ nl) ++ progressMarker ++ tail)
      by (now rewrite <- !app_assoc).
    apply search_app_found.
Qed.

(** X3: whatever the README was, after a patch with a section that starts
    with the status heading the README contains that heading. *)
Theorem patchReadme_includes_marker (doc section : jsstring) :
  startsWith section progressMarker = true ->
  includes (patchReadme doc section) progressMarker = true.
Proof.
  intros H. apply startsWith_split in H. rewrite H.
  unfold includes, indexOf.
  destruct (patchReadme_has_marker doc (skipn (List.length progressMarker) section))
    as [i ->].
  apply negb_true_iff, Z.eqb_neq. lia.
Qed.

Lemma patchReadme_includes_marker_witness :
  includes (patchReadme SampleReadme.bare SampleReadme.section) progressMarker = true.
Proof.
  apply patchReadme_includes_marker. vm_compute. reflexivity.
Defined.

(** X4: idempotence where it holds.  With a section made of the status
    heading followed by text free of ["\n## "], patching twice equals
    patching once whenever the README already holds the status heading
    or holds no license heading. *)
Theorem patchReadme_idempotent (doc tail : jsstring) :
  indexOf tail nextSectionMarker = -1 ->
  indexOf doc progressMarker <> -1 \/ indexOf doc licenseMarker = -1 ->
  patchReadme (patchReadme doc (progressMarker ++ tail)) (progressMarker ++ tail)
  = patchReadme doc (progressMarker ++ tail).
Proof.
  intros Ht Hc. apply indexOf_absent in Ht.
  exact (patchReadme_idempotent_elsewhere doc tail Ht Hc).
Qed.

Lemma patchReadme_idempotent_witness :
  patchReadme (patchReadme SampleReadme.withStatus SampleReadme.section)
    SampleReadme.section
  = patchReadme SampleReadme.withStatus SampleReadme.section.
Proof.
  change SampleReadme.section
    with (progressMarker ++ skipn (List.length progressMarker) SampleReadme.section).
  apply patchReadme_idempotent.
  - vm_compute. reflexivity.
  - left. vm_compute. discriminate.
Defined.

(** X5: from the second run on the README is a fixed point.  For every
    README, patching three times equals patching twice. *)
Theorem patchReadme_settles (doc tail : jsstring) :
  indexOf tail nextSectionMarker = -1 ->
  let section := progressMarker ++ tail in
  patchReadme (patchReadme (patchReadme doc section) section) section
  = patchReadme (patchReadme doc section) section.
Proof.
  intros Ht section. apply indexOf_absent in Ht.
  apply (patchReadme_idempotent_elsewhere (patchReadme doc section) tail Ht).
  left. unfold indexOf, section.
  destruct (patchReadme_has_marker doc tail) as [i ->]. lia.
Qed.

Lemma patchReadme_settles_witness :
  patchReadme
    (patchReadme (patchReadme SampleReadme.withLicense SampleReadme.section)
       SampleReadme.section)
    SampleReadme.section
  = patchReadme (patchReadme SampleReadme.withLicense SampleReadme.section)
      SampleReadme.section.
Proof.
  change SampleReadme.section
    with (progressMarker ++ skipn (List.length progressMarker) SampleReadme.section).
  apply patchReadme_settles. vm_compute. reflexivity.
Defined.

Lemma patchReadme_second_run_before_license_witness :
  exists pre post,
    SampleReadme.withLicense = pre ++ licenseMarker ++ post
    /\ patchReadme SampleReadme.withLicense SampleReadme.section
       = pre ++ SampleReadme.section ++ (nl ++ nl) ++ licenseMarker ++ post
    /\ patchReadme (patchReadme SampleReadme.withLicense SampleReadme.section)
         SampleReadme.section
       = pre ++ SampleReadme.section ++ nl ++ licenseMarker ++ post
    /\ patchReadme (patchReadme SampleReadme.withLicense SampleReadme.section)
         SampleReadme.section
       <> patchReadme SampleReadme.withLicense SampleReadme.section.
Proof.
  change SampleReadme.section
    with (progressMarker ++ skipn (List.length progressMarker) SampleReadme.section).
  apply patchReadme_second_run_before_license.
  - vm_compute. reflexivity.
  - vm_compute. reflexivity.
  - vm_compute. discriminate.
Defined.

(* ================================================================= *)
(** ** Properties of the generated section *)

Lemma generateProgressSection_split (now : Date) (tasks : list Task.t) :
  generateProgressSection now tasks
  = progressMarker ++ sectionHead ++ toLocaleString now ++ sectionRest tasks.
Proof.
  unfold generateProgressSection, sectionRest, sectionHead.
  destruct (0 <? Z.of_nat (List.length tasks)); rewrite <- !app_assoc; reflexivity.
Qed.

Lemma includes_infix (s x : jsstring) : includes s x = true <-> infix x s.
Proof.
  split.
  - unfold includes, indexOf. destruct (search s x) as [i|] eqn:E.
    + intros _. destruct (search_split _ _ _ E) as (a & b & -> & _). now exists a, b.
    + rewrite Z.eqb_refl. discriminate.
  - intros (a & b & ->). apply includes_app.
Qed.










(** *** The section generated for synthesized tasks is patched stably *)

Lemma startsWith_boundary_head (c : N) (s : jsstring) :
  c <> 10%N -> startsWith (c :: s) nextSectionMarker = false.
Proof.
  intros H. change nextSectionMarker with [10; 35; 35; 32]%N. cbn [startsWith].
  replace (10 =? c)%N with false; [reflexivity|].
  symmetry. apply N.eqb_neq. congruence.
Qed.

Lemma search_boundary_singleLine (s rest : jsstring) :
  singleLine s ->
  search rest nextSectionMarker = None ->
  search (s ++ rest) nextSectionMarker = None.
Proof.
  intros Hs Hr. induction Hs as [|c s Hc Hs IH]; [exact Hr|].
  cbn [app]. now rewrite search_unfold, startsWith_boundary_head, IH.
Qed.

(** No ["\n## "] appears by gluing two texts that hold none, when the
    last three units of the first hold no line feed. *)
Lemma search_boundary_app (s rest : jsstring) :
  search s nextSectionMarker = None ->
  singleLine (skipn (List.length s - 3) s) ->
  search rest nextSectionMarker = None ->
  search (s ++ rest) nextSectionMarker = None.
Proof.
  intros Hs Hl Hr. induction s as [|c s IH]; [exact Hr|].
  apply search_none_cons in Hs as [H1 H2].
  destruct (Nat.le_gt_cases 3 (List.length s)) as [Hlong|Hshort].
  - cbn [app]. rewrite search_unfold.
    change (c :: s ++ rest) with ((c :: s) ++ rest).
    rewrite startsWith_long, H1 by (simpl; lia).
    rewrite IH; [reflexivity | exact H2 |].
    replace (List.length (c :: s) - 3)%nat with (S (List.length s - 3)) in Hl
      by (simpl; lia).
    exact Hl.
  - replace (List.length (c :: s) - 3)%nat with O in Hl by (simpl; lia).
    cbn [skipn] in Hl.
    now apply (search_boundary_singleLine (c :: s)).
Qed.

Lemma sectionRest_generated (now : Date) (analysis : Analysis.t) :
  search (sectionRest (generateTasks now analysis)) nextSectionMarker = None.
Proof.
  destruct (generateTasks_cases now analysis) as [[_ ->] | [_ ->]].
  - vm_compute. reflexivity.
  - destruct (patternTasks_cases now analysis) as (d & w & n & ->).
    destruct d, w, n; vm_compute; reflexivity.
Qed.

Lemma generated_tail (now : Date) (analysis : Analysis.t) :
  singleLine (toLocaleString now) ->
  search (sectionHead ++ toLocaleString now
          ++ sectionRest (generateTasks now analysis)) nextSectionMarker = None.
Proof.
  intros Hl. apply search_boundary_app.
  - vm_compute. reflexivity.
  - vm_compute. repeat constructor; discriminate.
  - apply search_boundary_singleLine; [exact Hl | apply sectionRest_generated].
Qed.

(** X8: the section written for synthesized tasks is patched stably.
    When the local time string holds no line feed, the section
    generated for the tasks of any analysis leaves every README fixed
    from the second patch on, and already from the first when the
    README holds the status heading or holds no license heading. *)
Theorem generated_section_stable
    (now : Date) (analysis : Analysis.t) (doc : jsstring) :
  singleLine (toLocaleString now) ->
  let section := generateProgressSection now (generateTasks now analysis) in
  patchReadme (patchReadme (patchReadme doc section) section) section
  = patchReadme (patchReadme doc section) section
  /\ (indexOf doc progressMarker = -1 /\ indexOf doc licenseMarker <> -1
      \/ patchReadme (patchReadme doc section) section = patchReadme doc section).
Proof.
  intros Hl section. subst section. rewrite generateProgressSection_split.
  pose proof (generated_tail now analysis Hl) as Ht.
  set (tail := sectionHead ++ toLocaleString now
               ++ sectionRest (generateTasks now analysis)) in *.
  split.
  - apply (patchReadme_idempotent_elsewhere (patchReadme doc (progressMarker ++ tail))
             tail Ht).
    left. unfold indexOf.
    destruct (patchReadme_has_marker doc tail) as [i ->]. lia.
  - destruct (Z.eq_dec (indexOf doc progressMarker) (-1)) as [Hm|Hm].
    + destruct (Z.eq_dec (indexOf doc licenseMarker) (-1)) as [Hc|Hc].
      * right. apply (patchReadme_idempotent_elsewhere doc tail Ht). now right.
      * left. split; assumption.
    + right. apply (patchReadme_idempotent_elsewhere doc tail Ht). now left.
Qed.

Lemma generated_section_stable_witness :
  let section :=
    generateProgressSection Sample.now
      (generateTasks Sample.now Sample.workflowAnalysis) in
  patchReadme (patchReadme (patchReadme SampleReadme.bare section) section) section
  = patchReadme (patchReadme SampleReadme.bare section) section
  /\ (indexOf SampleReadme.bare progressMarker = -1
      /\ indexOf SampleReadme.bare licenseMarker <> -1
      \/ patchReadme (patchReadme SampleReadme.bare section) section
         = patchReadme SampleReadme.bare section).
Proof.
  apply (generated_section_stable Sample.now Sample.workflowAnalysis SampleReadme.bare).
  vm_compute. repeat constructor; discriminate.
Defined.



(* ================================================================= *)
(** ** Properties of the summary *)

Lemma eqb_eq (s t : jsstring) : JS.eqb s t = true <-> s = t.
Proof.
  revert t. induction s as [|a s IH]; intros [|b t]; cbn; split;
    try discriminate; try reflexivity.
  - intros H. apply andb_prop in H as [H1 H2].
    apply N.eqb_eq in H1. apply IH in H2. congruence.
  - intros H. inversion H. subst. rewrite N.eqb_refl. now apply IH.
Qed.

Lemma eqb_refl (s : jsstring) : JS.eqb s s = true.
Proof. now apply eqb_eq. Qed.

(** Reading a count after writing one. *)
Lemma get_set (acc : counts) (key key' : jsstring) (value : Z) :
  get (set acc key value) key'
  = if JS.eqb key key' then Some value else get acc key'.
Proof.
  induction acc as [|[k v] rest IH]; cbn.
  - reflexivity.
  - destruct (JS.eqb k key) eqn:E; cbn.
    + apply eqb_eq in E. subst k.
      destruct (JS.eqb key key'); reflexivity.
    + rewrite IH. destruct (JS.eqb k key') eqn:E'; [|reflexivity].
      destruct (JS.eqb key key') eqn:E2; [|reflexivity].
      apply eqb_eq in E', E2. subst. rewrite eqb_refl in E. discriminate E.
Qed.

Section SummaryFacts.

Context {World : Type} {env : Collaborators World}.

Lemma fileTypes_from (files : list File.t) (acc : counts) (ext : jsstring) :
  orZero (get (fold_left (fun acc file =>
                            let e := extname (File.filename file) in
                            set acc e (orZero (get acc e) + 1)) files acc) ext)
  = orZero (get acc ext) + Z.of_nat (List.length (withExtension ext files)).
Proof.
  revert acc. induction files as [|f files IH]; intros acc; cbn [fold_left].
  - cbn. lia.
  - rewrite IH. cbn zeta. rewrite get_set. unfold withExtension. cbn [filter].
    destruct (JS.eqb (extname (File.filename f)) ext) eqn:E.
    + apply eqb_eq in E. subst ext. cbn [orZero List.length]. lia.
    + lia.
Qed.

Lemma fileTypes_count (files : list File.t) (ext : jsstring) :
  orZero (get (fileTypes files) ext)
  = Z.of_nat (List.length (withExtension ext files)).
Proof.
  exact (fileTypes_from files [] ext).
Qed.

(** Every count stored is positive. *)
Lemma fileTypes_positive (files : list File.t) (ext : jsstring) (v : Z) :
  get (fileTypes files) ext = Some v -> 0 < v.
Proof.
  unfold fileTypes.
  assert (G : forall (fs : list File.t) (acc : counts),
             (forall k v, get acc k = Some v -> 0 < v) ->
             forall k v,
               get (fold_left (fun acc file =>
                                 let e := extname (File.filename file) in
                                 set acc e (orZero (get acc e) + 1)) fs acc) k
               = Some v -> 0 < v).
  { induction fs as [|f fs IH]; intros acc Hacc k v'; [apply Hacc|].
    cbn [fold_left]. apply IH. intros k' v''. cbn zeta. rewrite get_set.
    destruct (JS.eqb (extname (File.filename f)) k').
    - intros E. inversion E.
      destruct (get acc (extname (File.filename f))) as [n|] eqn:En; cbn.
      + specialize (Hacc _ _ En). lia.
      + lia.
    - apply Hacc. }
  apply G. intros k v' Hk. discriminate Hk.
Qed.

(** X9: [fileTypes] counts.  For every extension, the entry of the
    object built by the [reduce] is the number of files with that
    extension, and the entry is missing exactly when there is none. *)
Theorem fileTypes_counts (files : list File.t) (ext : jsstring) :
  match get (fileTypes files) ext with
  | Some n => n = Z.of_nat (List.length (withExtension ext files)) /\ 0 < n
  | None => withExtension ext files = []
  end.
Proof.
  pose proof (fileTypes_count files ext) as H.
  destruct (get (fileTypes files) ext) as [n|] eqn:E; cbn in H.
  - split; [exact H | exact (fileTypes_positive files ext n E)].
  - destruct (withExtension ext files); [reflexivity | simpl in H; lia].
Qed.

Lemma present_fileTypes (files : list File.t) (ext : jsstring) :
  present (fileTypes files) ext
  = negb (Nat.eqb (List.length (withExtension ext files)) 0).
Proof.
  unfold present. rewrite fileTypes_count.
  destruct (withExtension ext files); reflexivity.
Qed.

(** X10: the summary by extension.  The summary is the title, the number
    of files and the categories of the extensions present, in the
    order documentation, automation, workflows, notebook; how often an
    extension occurs and in which order the files come plays no part
    in the categories. *)
Theorem generatePRSummary_by_extension (pr : PR.t) (files : list File.t) :
  generatePRSummary pr files
  = PR.title pr ++ str " - Modified " ++ ofNumber (Z.of_nat (List.length files))
    ++ str " files (" ++ join (str ", ") (categoriesOf files) ++ str ")".
Proof.
  unfold generatePRSummary, categoriesOf. now rewrite !present_fileTypes.
Qed.

Lemma withExtension_perm (ext : jsstring) (files files' : list File.t) :
  Permutation files files' ->
  List.length (withExtension ext files) = List.length (withExtension ext files').
Proof.
  intros H. unfold withExtension.
  induction H as [|f l l' H IH|f g l|l l' l'' H1 IH1 H2 IH2]; cbn.
  - reflexivity.
  - destruct (JS.eqb (extname (File.filename f)) ext); cbn; now rewrite IH.
  - destruct (JS.eqb (extname (File.filename f)) ext),
             (JS.eqb (extname (File.filename g)) ext); reflexivity.
  - now rewrite IH1.
Qed.

(** X11: the summary does not depend on the order of the files. *)
Theorem generatePRSummary_permutation (pr : PR.t) (files files' : list File.t) :
  Permutation files files' ->
  generatePRSummary pr files = generatePRSummary pr files'.
Proof.
  intros H. unfold generatePRSummary.
  rewrite !present_fileTypes.
  rewrite (Permutation_length H).
  now rewrite !(withExtension_perm _ files files' H).
Qed.

End SummaryFacts.

Lemma generatePRSummary_permutation_witness :
  @generatePRSummary nat sampleFiles SampleService.newest
    [Sample.file "README.md"; Sample.file "src/agent.js"; Sample.file "ci.yml"]
  = @generatePRSummary nat sampleFiles SampleService.newest
      [Sample.file "ci.yml"; Sample.file "README.md"; Sample.file "src/agent.js"].
Proof.
  apply (@generatePRSummary_permutation nat sampleFiles).
  apply Permutation_sym, (Permutation_cons_app [_; _] []). reflexivity.
Defined.

(** The summary of the first mock record of [test-agent.js], files
    [README.md] and [rclone_gdrive_transfer.ipynb]. *)
Example generatePRSummary_mock :
  @generatePRSummary nat sampleFiles (SampleService.pull 1 "Initial setup" true)
    [Sample.file "README.md"; Sample.file "rclone_gdrive_transfer.ipynb"]
  = str "Initial setup - Modified 2 files (documentation, notebook)".
Proof. vm_compute. reflexivity. Qed.

(* ================================================================= *)
(** ** Further properties of the analyzer and of the pipeline *)

Section PipelineFacts.

Context {World : Type} {env : Collaborators World}.

Lemma analyzeEach_analysisOf (prs : list PR.t) (w : World) :
  Forall2 analysisOf prs (fst (analyzeEach prs w)).
Proof.
  revert w. induction prs as [|pr rest IH]; intros w; [constructor|].
  rewrite analyzeEach_cons. cbn [fst]. constructor; [|apply IH].
  unfold analysisOf, analyzePR. destruct (fetchFiles pr w). cbn. auto.
Qed.

Lemma analyzeEach_no_files (prs : list PR.t) (w : World) :
  (forall number w', exists message w'',
      pulls_listFiles number w' = (Throw message, w'')) ->
  fst (analyzeEach prs w) = map degraded prs.
Proof.
  intros Hdown. revert w. induction prs as [|pr rest IH]; intros w; [reflexivity|].
  rewrite analyzeEach_cons. cbn [fst map].
  destruct (Hdown (PR.number pr) w) as (message & w'' & H).
  rewrite (analyzePR_throw _ _ _ _ H). cbn [fst snd]. now rewrite IH.
Qed.

(** X12: what [recentPRs] holds.  When the listing succeeds, the records
    correspond one to one, in order, to the first five merged pull
    requests of the listing: number, title, body and merge time are
    copied and the summary is the one generated from the record's own
    file list; every record has a merge time that is set. *)
Theorem analyzeRecentPRs_records (prs : list PR.t) (w w1 : World) :
  pulls_list w = (Ok prs, w1) ->
  let recent := Analysis.recentPRs (fst (analyzeRecentPRs w)) in
  Forall2 analysisOf (firstn 5 (filter merged prs)) recent
  /\ Forall (fun prAnalysis => truthy (PRAnalysis.mergedAt prAnalysis) = true) recent.
Proof.
  intros H recent. subst recent.
  rewrite (analyzeRecentPRs_ok prs w w1 H). cbn [fst Analysis.recentPRs].
  pose proof (analyzeEach_analysisOf (firstn 5 (filter merged prs)) w1) as HF.
  split; [exact HF|].
  assert (Hm : Forall (fun pr => merged pr = true) (firstn 5 (filter merged prs))).
  { apply Forall_forall. intros pr Hin.
    assert (Hin' : In pr (filter merged prs))
      by (rewrite <- (firstn_skipn 5); apply in_or_app; now left).
    apply filter_In in Hin'. tauto. }
  induction HF as [|pr pa l l' Hpa HF IH]; constructor.
  - destruct Hpa as (_ & _ & _ & -> & _). now inversion Hm.
  - apply IH. now inversion Hm.
Qed.

(** X13: no record, no pattern.  When the listing call throws or lists no
    merged pull request, the tasks synthesized from the analysis are
    the fallback task alone. *)
Theorem pipeline_fallback (now : Date) (w : World) :
  match fst (pulls_list w) with
  | Ok prs => filter merged prs = []
  | Throw _ => True
  end ->
  generateTasks now (fst (analyzeRecentPRs w)) = [generalTask now].
Proof.
  intros H. apply generateTasks_no_records.
  destruct (pulls_list w) as [[prs|message] w1] eqn:E; cbn [fst] in H.
  - rewrite (analyzeRecentPRs_ok prs w w1 E), H. reflexivity.
  - now rewrite (analyzeRecentPRs_throw message w w1 E).
Qed.

(** X14: files unavailable.  When the listing holds a merged pull request
    but every file listing throws, no path is known, so exactly the
    documentation task is synthesized. *)
Theorem pipeline_without_files (now : Date) (prs : list PR.t) (w w1 : World) :
  pulls_list w = (Ok prs, w1) ->
  filter merged prs <> [] ->
  (forall number w', exists message w'',
      pulls_listFiles number w' = (Throw message, w'')) ->
  generateTasks now (fst (analyzeRecentPRs w)) = [docTask now].
Proof.
  intros Hl Hm Hdown.
  rewrite (analyzeRecentPRs_ok prs w w1 Hl), (analyzeEach_no_files _ _ Hdown).
  cbn [fst]. destruct (filter merged prs) as [|pr rest]; [congruence|].
  unfold generateTasks, patternTasks, hasDocumentationChanges, hasWorkflowChanges,
    hasNotebookChanges. cbn [Analysis.recentPRs].
  assert (Hnone : forall (test : File.t -> bool) (l : list PR.t),
             existsb (fun pr => existsb test (PRAnalysis.files pr)) (map degraded l)
             = false)
    by (intros test l; induction l; cbn; auto).
  rewrite !Hnone. reflexivity.
Qed.

End PipelineFacts.

Lemma analyzeRecentPRs_records_witness :
  let recent := Analysis.recentPRs (fst (@analyzeRecentPRs nat sampleFiles 0%nat)) in
  Forall2 (@analysisOf nat sampleFiles)
    (firstn 5 (filter merged SampleService.pulls)) recent
  /\ Forall (fun prAnalysis => truthy (PRAnalysis.mergedAt prAnalysis) = true) recent.
Proof.
  apply (@analyzeRecentPRs_records nat sampleFiles SampleService.pulls 0%nat 1%nat).
  reflexivity.
Defined.

Lemma pipeline_fallback_witness :
  generateTasks Sample.now (fst (@analyzeRecentPRs nat SampleService.down 0%nat))
  = [generalTask Sample.now].
Proof.
  apply (@pipeline_fallback nat SampleService.down Sample.now 0%nat).
  simpl. exact I.
Defined.

Lemma pipeline_without_files_witness :
  generateTasks Sample.now (fst (@analyzeRecentPRs nat sampleNoFiles 0%nat))
  = [docTask Sample.now].
Proof.
  apply (@pipeline_without_files nat sampleNoFiles Sample.now
           SampleService.pulls 0%nat 1%nat).
  - reflexivity.
  - vm_compute. discriminate.
  - intros number w'. eexists. eexists. reflexivity.
Defined.

(* ================================================================= *)
(** ** Further properties of task synthesis *)

Lemma endsWith_suffix (s x : jsstring) :
  endsWith s x = true <-> exists base, s = base ++ x.
Proof.
  unfold endsWith. split.
  - intros H. apply andb_prop in H as [Hl He].
    apply eqb_eq in He. remember (List.length s - List.length x)%nat as k.
    exists (firstn k s). rewrite <- He. symmetry. apply firstn_skipn.
  - intros (base & ->). rewrite length_app.
    replace (List.length base + List.length x - List.length x)%nat
      with (List.length base) by lia.
    rewrite skipn_app, skipn_all, Nat.sub_diag. cbn [app skipn].
    rewrite eqb_refl, andb_true_r. apply Nat.leb_le. lia.
Qed.

Lemma existsb_files (test : File.t -> bool) (analysis : Analysis.t) :
  existsb (fun pr => existsb test (PRAnalysis.files pr))
          (Analysis.recentPRs analysis) = true
  <-> exists path, touched analysis path
                   /\ exists file, File.filename file = path /\ test file = true
                                   /\ exists pr, In pr (Analysis.recentPRs analysis)
                                                 /\ In file (PRAnalysis.files pr).
Proof.
  rewrite existsb_exists. split.
  - intros (pr & Hpr & H). apply existsb_exists in H as (file & Hf & Ht).
    exists (File.filename file). split; [now exists pr, file|].
    exists file. repeat split; try assumption. now exists pr.
  - intros (path & _ & file & _ & Ht & pr & Hpr & Hf).
    exists pr. split; [exact Hpr|]. apply existsb_exists. now exists file.
Qed.

Lemma hasDocumentationChanges_touched (analysis : Analysis.t) :
  hasDocumentationChanges analysis = true
  <-> exists base, touched analysis (base ++ str ".md").
Proof.
  unfold hasDocumentationChanges. rewrite existsb_files. split.
  - intros (path & Ht & file & Hp & He & _). apply endsWith_suffix in He as (base & E).
    exists base. now rewrite <- E, Hp.
  - intros (base & pr & file & Hpr & Hf & E).
    exists (base ++ str ".md"). split; [now exists pr, file|].
    exists file. repeat split; try assumption.
    + apply endsWith_suffix. now exists base.
    + now exists pr.
Qed.

Lemma hasNotebookChanges_touched (analysis : Analysis.t) :
  hasNotebookChanges analysis = true
  <-> exists base, touched analysis (base ++ str ".ipynb").
Proof.
  unfold hasNotebookChanges. rewrite existsb_files. split.
  - intros (path & Ht & file & Hp & He & _). apply endsWith_suffix in He as (base & E).
    exists base. now rewrite <- E, Hp.
  - intros (base & pr & file & Hpr & Hf & E).
    exists (base ++ str ".ipynb"). split; [now exists pr, file|].
    exists file. repeat split; try assumption.
    + apply endsWith_suffix. now exists base.
    + now exists pr.
Qed.

Lemma hasWorkflowChanges_touched (analysis : Analysis.t) :
  hasWorkflowChanges analysis = true
  <-> exists before after,
        touched analysis (before ++ str ".github/workflows" ++ after).
Proof.
  unfold hasWorkflowChanges. rewrite existsb_files. split.
  - intros (path & Ht & file & Hp & He & _).
    apply includes_infix in He as (before & after & E).
    exists before, after. now rewrite <- E, Hp.
  - intros (before & after & pr & file & Hpr & Hf & E).
    exists (before ++ str ".github/workflows" ++ after). split; [now exists pr, file|].
    exists file. repeat split; try assumption.
    + apply includes_infix. now exists before, after.
    + now exists pr.
Qed.

(** X15: which rule fires when, in terms of the touched paths.  The
    result is, in this order, the documentation task when there is a
    record and no touched path ends in [".md"], the workflow task when
    a touched path contains [".github/workflows"], the notebook task
    when a touched path ends in [".ipynb"], and the fallback task when
    none of the three was produced. *)
Theorem generateTasks_rules (now : Date) (analysis : Analysis.t) :
  exists doc workflow notebook general : bool,
    generateTasks now analysis
    = (if doc then [docTask now] else [])
      ++ (if workflow then [workflowTask now] else [])
      ++ (if notebook then [notebookTask now] else [])
      ++ (if general then [generalTask now] else [])
    /\ (doc = true <->
        Analysis.recentPRs analysis <> []
        /\ ~ exists base, touched analysis (base ++ str ".md"))
    /\ (workflow = true <->
        exists before after,
          touched analysis (before ++ str ".github/workflows" ++ after))
    /\ (notebook = true <->
        exists base, touched analysis (base ++ str ".ipynb"))
    /\ (general = true <-> doc = false /\ workflow = false /\ notebook = false).
Proof.
  pose proof (hasDocumentationChanges_touched analysis) as Hd.
  pose proof (hasWorkflowChanges_touched analysis) as Hw.
  pose proof (hasNotebookChanges_touched analysis) as Hn.
  unfold generateTasks, patternTasks.
  destruct (Analysis.recentPRs analysis) as [|pr rest] eqn:E.
  - exists false, false, false, true. split; [reflexivity|].
    split; [|split; [|split]].
    + split; [discriminate | intros [H _]; congruence].
    + split; [discriminate|]. intros H. apply Hw in H.
      unfold hasWorkflowChanges in H. rewrite E in H. discriminate H.
    + split; [discriminate|]. intros H. apply Hn in H.
      unfold hasNotebookChanges in H. rewrite E in H. discriminate H.
    + tauto.
  - replace (0 <? Z.of_nat (List.length (pr :: rest))) with true
      by (symmetry; apply Z.ltb_lt; simpl; lia).
    exists (negb (hasDocumentationChanges analysis)), (hasWorkflowChanges analysis),
      (hasNotebookChanges analysis),
      (hasDocumentationChanges analysis && negb (hasWorkflowChanges analysis)
       && negb (hasNotebookChanges analysis)).
    split; [|split; [|split; [|split]]].
    + destruct (hasDocumentationChanges analysis), (hasWorkflowChanges analysis),
        (hasNotebookChanges analysis); reflexivity.
    + rewrite negb_true_iff, <- Hd. split.
      * intros H. split; [discriminate | congruence].
      * intros [_ H]. now destruct (hasDocumentationChanges analysis).
    + exact Hw.
    + exact Hn.
    + destruct (hasDocumentationChanges analysis), (hasWorkflowChanges analysis),
        (hasNotebookChanges analysis); cbn; intuition congruence.
Qed.

(** X16: every synthesized task is complete.  Its id, title, description
    and type are not empty, so the field check of the test script never
    throws; its priority is ["medium"], its creation time is the clock
    reading, its estimate is positive and it names at least one file. *)
Theorem generateTasks_fields (now : Date) (analysis : Analysis.t) :
  Forall (fun t =>
            Task.id t <> [] /\ Task.title t <> [] /\ Task.description t <> []
            /\ Task.type t <> []
            /\ Task.priority t = str "medium"
            /\ Task.createdAt t = toISOString now
            /\ 0 < Task.estimatedHours t
            /\ Task.files t <> [])
         (generateTasks now analysis).
Proof.
  apply generateTasks_Forall; cbn; repeat split; try discriminate; lia.
Qed.

(* ================================================================= *)
(** ** Properties of the repository identity *)

Lemma split_segments (s : jsstring) : Forall segment (split s) /\ split s <> [].
Proof.
  induction s as [|c s [IH Hne]]; cbn.
  - split; [repeat constructor | discriminate].
  - destruct (c =? 47)%N eqn:E.
    + split; [constructor; [constructor | exact IH] | discriminate].
    + apply N.eqb_neq in E. destruct (split s) as [|first others]; [congruence|].
      inversion IH. split; [|discriminate].
      constructor; [constructor; assumption | assumption].
Qed.

Lemma split_before_slash (o rest : jsstring) :
  segment o -> split (o ++ 47%N :: rest) = o :: split rest.
Proof.
  intros Ho. induction Ho as [|c o Hc Ho IH]; cbn.
  - reflexivity.
  - apply N.eqb_neq in Hc. now rewrite Hc, IH.
Qed.

Lemma split_single (o : jsstring) : segment o -> split o = [o].
Proof.
  intros Ho. induction Ho as [|c o Hc Ho IH]; cbn; [reflexivity|].
  apply N.eqb_neq in Hc. now rewrite Hc, IH.
Qed.

Lemma orElse_nonempty (value : option jsstring) (fallback : jsstring) :
  fallback <> [] -> orElse value fallback <> [].
Proof.
  intros H. destruct value as [[|c rest]|]; cbn; congruence.
Qed.

Lemma part_segment (env : option jsstring) (i : nat) (fallback : jsstring) :
  segment fallback -> segment (orElse (part env i) fallback).
Proof.
  intros H. unfold part. destruct env as [value|]; [|exact H].
  destruct (nth_error (split value) i) as [[|c rest]|] eqn:E; cbn; try exact H.
  apply nth_error_In in E.
  destruct (split_segments value) as [Hall _].
  rewrite Forall_forall in Hall. exact (Hall _ E).
Qed.

(** X17: the repository identity is always usable.  Whatever
    [GITHUB_REPOSITORY] holds, including nothing or the empty string,
    [owner] and [repo] are non-empty and contain no slash; without the
    variable they are the built-in defaults. *)
Theorem repository_always_set (GITHUB_REPOSITORY : option jsstring) :
  owner GITHUB_REPOSITORY <> [] /\ repo GITHUB_REPOSITORY <> []
  /\ segment (owner GITHUB_REPOSITORY) /\ segment (repo GITHUB_REPOSITORY)
  /\ owner None = str "dzp5103" /\ repo None = str "gdrive-tranfer"
  /\ owner (Some []) = str "dzp5103" /\ repo (Some []) = str "gdrive-tranfer".
Proof.
  repeat split; try (apply orElse_nonempty; discriminate);
    apply part_segment; vm_compute; repeat constructor; discriminate.
Qed.

(** X18: [owner/repo] is taken apart at the slash.  For an owner and a
    repository name that are non-empty and free of slashes, the value
    [owner/repo] gives back exactly these two; a value without slash
    gives the owner and the default repository. *)
Theorem repository_parsed (o r : jsstring) :
  segment o -> segment r -> o <> [] -> r <> [] ->
  owner (Some (o ++ str "/" ++ r)) = o
  /\ repo (Some (o ++ str "/" ++ r)) = r
  /\ owner (Some o) = o
  /\ repo (Some o) = str "gdrive-tranfer".
Proof.
  intros Ho Hr Hon Hrn. unfold owner, repo, part.
  change (str "/" ++ r) with (47%N :: r).
  rewrite (split_before_slash o r Ho), (split_single r Hr), (split_single o Ho).
  cbn. destruct o, r; try congruence. auto.
Qed.

Lemma repository_parsed_witness :
  owner (Some (str "octo-org" ++ str "/" ++ str "transfer-tool")) = str "octo-org"
  /\ repo (Some (str "octo-org" ++ str "/" ++ str "transfer-tool"))
     = str "transfer-tool"
  /\ owner (Some (str "octo-org")) = str "octo-org"
  /\ repo (Some (str "octo-org")) = str "gdrive-tranfer".
Proof.
  apply repository_parsed;
    first [ vm_compute; repeat constructor; discriminate | discriminate ].
Defined.

(* ================================================================= *)
(** ** Properties of the validator *)

Module ValidatorFacts.
Import Validator.

























End ValidatorFacts.


(** The sample working directory lacks [.gitignore], a required file,
    and its workflow file is incomplete, so validation fails on it
    although the agent's artifacts pass. *)
Example validate_sampleRepo :
  accepts sampleRepo = false
  /\ Validator.exitStatus (Validator.validate sampleRepo Sample.now) = 1.
Proof. vm_compute. split; reflexivity. Qed.
